(** * systemd cgroup driver: slice naming, unit lifecycle, CPU quota
      translation and the legacy (cgroup v1) manager.

    Shallow embedding of [systemd/common.go] and of the legacy manager
    ([LegacyManager], [genV1ResourcesProperties], [joinCgroups], ...).

    Go strings are [string] (byte sequences), [int64]/[uint64] are [Z] with the
    wrap-around written out, [map[string]string] is [gmap string string]
    (a nil map is [None]), and every call that leaves the process (D-Bus,
    cgroup filesystem, logging) is recorded in a history of events and
    answered by a [Host] that may look at that history. *)

From Stdlib Require Import ZArith Lia Bool List Ascii String.
From stdpp Require Import gmap strings.
Import ListNotations.

Local Open Scope string_scope.
Local Open Scope Z_scope.

(** ** Go's [strings] package, as far as the driver uses it *)

Module strings.

(** [strings.HasPrefix]. *)
Fixpoint HasPrefix (s pre : string) : bool :=
  match pre, s with
  | EmptyString, _ => true
  | String _ _, EmptyString => false
  | String a pre', String b s' => Ascii.eqb a b && HasPrefix s' pre'
  end.

(** [strings.HasSuffix]: [len(s) >= len(suffix) &&
    s[len(s)-len(suffix):] == suffix]. *)
Definition HasSuffix (s suffix : string) : bool :=
  (String.length suffix <=? String.length s)%nat &&
  String.eqb
    (substring (String.length s - String.length suffix)
               (String.length suffix) s)
    suffix.

(** [strings.TrimSuffix]. *)
Definition TrimSuffix (s suffix : string) : string :=
  if HasSuffix s suffix
  then substring 0 (String.length s - String.length suffix) s
  else s.

(** [strings.Contains]: some position of [s] starts with [substr]. *)
Fixpoint Contains (s substr : string) : bool :=
  HasPrefix s substr ||
  match s with
  | EmptyString => false
  | String _ s' => Contains s' substr
  end.

(** [strings.Split(s, sep)] for a separator of one byte, which is the only
    way the driver calls it: the fields between the separators, in order;
    always at least one field. *)
Fixpoint Split (s : string) (sep : ascii) : list string :=
  match s with
  | EmptyString => [EmptyString]
  | String c s' =>
      if Ascii.eqb c sep then EmptyString :: Split s' sep
      else match Split s' sep with
           | [] => [String c EmptyString]
           | f :: fs => String c f :: fs
           end
  end.

End strings.

(** ** Errors *)

(** Go's [error] values that the driver can tell apart: a [dbus.Error] with
    its name, the cgroups package's not-found error (what [cgroups.IsNotFound]
    recognises), a plain message, and an error wrapping another one. *)
Inductive error : Type :=
| DbusError (name : string) (body : string)
| NotFoundError (subsystem : string)
| ErrorString (msg : string)
| WrapError (msg : string) (inner : error).

Inductive result (A : Type) : Type :=
| Ok (a : A)
| Err (e : error).
Arguments Ok {A} a.
Arguments Err {A} e.

(** [fmt.Errorf("invalid slice name: %s", slice)]. *)
Definition invalidSliceName (slice : string) : error :=
  ErrorString ("invalid slice name: " ++ slice).

(** ** Slice and unit naming ([systemd/common.go]) *)

(** The body of the [for _, component := range ...] loop of [ExpandSlice],
    with the two accumulators [path] and [prefix]. *)
Fixpoint expandComponents (slice suffix : string) (components : list string)
    (path prefix : string) : result string :=
  match components with
  | [] => Ok path
  | component :: rest =>
      if String.eqb component "" then Err (invalidSliceName slice)
      else expandComponents slice suffix rest
             (path ++ "/" ++ prefix ++ component ++ suffix)
             (prefix ++ component ++ "-")
  end.

Definition ExpandSlice (slice : string) : result string :=
  let suffix := ".slice" in
  if (String.length slice <? String.length suffix)%nat
     || negb (strings.HasSuffix slice suffix)
  then Err (invalidSliceName slice)
  else if strings.Contains slice "/"
  then Err (invalidSliceName slice)
  else
    let sliceName := strings.TrimSuffix slice suffix in
    if String.eqb sliceName "-" then Ok "/"
    else expandComponents slice suffix (strings.Split sliceName "-") "" "".

(** A [dbus.Variant]: the Go value handed to [dbus.MakeVariant]. *)
Inductive Variant : Type :=
| VUint64 (n : Z)
| VBool (b : bool)
| VString (s : string)
| VStrings (l : list string)
| VUint32s (l : list Z).

(** [systemdDbus.Property]. *)
Record Property : Type := mkProperty {
  PropName : string;
  PropValue : Variant
}.

(** The fields of [configs.Resources], [configs.Cgroup] and [configs.Config]
    that the driver reads or writes.  [FreezerState] is a Go string type. *)
Module configs.

Definition FreezerState := string.

Record Resources : Type := mkResources {
  Memory : Z;          (* int64 *)
  CpuShares : Z;       (* uint64 *)
  CpuQuota : Z;        (* int64 *)
  CpuPeriod : Z;       (* uint64 *)
  BlkioWeight : Z;     (* uint16 *)
  PidsLimit : Z;       (* int64 *)
  KernelMemory : Z;    (* int64 *)
  Freezer : FreezerState
}.

Record Cgroup : Type := mkCgroup {
  Name : string;
  Parent : string;
  ScopePrefix : string;
  Path : string;
  Paths : option (gmap string string);   (* a nil map is None *)
  Resources_ : Resources;                (* the embedded *Resources *)
  SystemdProps : list Property
}.

Record Config : Type := mkConfig {
  Cgroups : Cgroup
}.

(** [c.Resources.Freezer = state] through the shared pointer. *)
Definition setFreezer (c : Cgroup) (state : FreezerState) : Cgroup :=
  {| Name := Name c; Parent := Parent c; ScopePrefix := ScopePrefix c;
     Path := Path c; Paths := Paths c;
     Resources_ :=
       {| Memory := Memory (Resources_ c);
          CpuShares := CpuShares (Resources_ c);
          CpuQuota := CpuQuota (Resources_ c);
          CpuPeriod := CpuPeriod (Resources_ c);
          BlkioWeight := BlkioWeight (Resources_ c);
          PidsLimit := PidsLimit (Resources_ c);
          KernelMemory := KernelMemory (Resources_ c);
          Freezer := state |};
     SystemdProps := SystemdProps c |}.

End configs.

Definition newProp (name : string) (units : Variant) : Property :=
  {| PropName := name; PropValue := units |}.

(** [systemdDbus.PropDescription], [PropWants] and [PropSlice]. *)
Definition PropDescription (desc : string) : Property :=
  newProp "Description" (VString desc).
Definition PropWants (unit : string) : Property :=
  newProp "Wants" (VStrings [unit]).
Definition PropSlice (slice : string) : Property :=
  newProp "Slice" (VString slice).

Definition getUnitName (c : configs.Cgroup) : string :=
  (* by default, we create a scope unless the user explicitly asks for a slice. *)
  if negb (strings.HasSuffix (configs.Name c) ".slice")
  then configs.ScopePrefix c ++ "-" ++ configs.Name c ++ ".scope"
  else configs.Name c.

Definition getUnitType (unitName : string) : string :=
  if strings.HasSuffix unitName ".slice" then "Slice" else "Scope".

(** [errors.As(err, &derr)] for a [dbus.Error] target: the first [dbus.Error]
    in the chain of wrapped errors, by its name. *)
Fixpoint asDbusError (err : error) : option string :=
  match err with
  | DbusError name _ => Some name
  | WrapError _ inner => asDbusError inner
  | _ => None
  end.

(** [isDbusError]; a nil error is [None]. *)
Definition isDbusError (err : option error) (name : string) : bool :=
  match err with
  | Some e =>
      match asDbusError e with
      | Some derrName => strings.Contains derrName name
      | None => false
      end
  | None => false
  end.

Definition isUnitExists (err : option error) : bool :=
  isDbusError err "org.freedesktop.systemd1.UnitExists".

(** [cgroups.IsNotFound]: the chain holds the cgroups not-found error. *)
Fixpoint IsNotFound (err : error) : bool :=
  match err with
  | NotFoundError _ => true
  | WrapError _ inner => IsNotFound inner
  | _ => false
  end.

(** ** Machine integers *)

Definition MaxUint64 : Z := 2 ^ 64 - 1.
Definition MaxInt64 : Z := 2 ^ 63 - 1.

(** Conversion to [uint64] and to [uint32], and the wrap-around of an [int64]
    result. *)
Definition to_uint64 (z : Z) : Z := z mod 2 ^ 64.
Definition to_uint32 (z : Z) : Z := z mod 2 ^ 32.
Definition wrap_int64 (z : Z) : Z := (z + 2 ^ 63) mod 2 ^ 64 - 2 ^ 63.

Definition is_int64 (z : Z) : Prop := - 2 ^ 63 <= z <= MaxInt64.

(** Default kernel value for cpu quota period is 100000 us (100 ms). *)
Definition defCPUQuotaPeriod : Z := 100000.

(** ** The world outside the process *)

(** An argument of a log call ([%s], [%d], [%v] of an error). *)
Inductive LogArg : Type :=
| AStr (s : string)
| AInt (z : Z)
| AErr (e : error).

(** Every call that leaves the process, with its arguments. *)
Inductive Event : Type :=
| EStartTransientUnit (name mode : string) (properties : list Property)
| EStopUnit (name mode : string)
| EResetFailedUnit (name : string)
| EGetManagerProperty (name : string)
| EGetDbusConnection
| ESetUnitProperties (name : string) (runtime : bool)
    (properties : list Property)
| EFindCgroupMountpoint (cgroupPath subsystem : string)
| EGetInitCgroup (subsystem : string)
| EMkdirAll (path : string) (perm : Z)
| EWriteCgroupProc (path : string) (pid : Z)
| ECpusetApplyDir (path : string) (c : configs.Cgroup) (pid : Z)
| EEnterPid (paths : gmap string string) (pid : Z)
| EReadFile (path : string)
| EEnableKernelMemoryAccounting (path : string)
| ESubsystemSet (name path : string) (c : configs.Cgroup)
| ECheckCpushares (path : string) (shares : Z)
| ELog (level format : string) (args : list LogArg).

(** What a unit job request gives back: the error of the request itself
    (after [retryOnDisconnect]), or else what the [select] receives first,
    a completion status on [statusChan] or the 30-second timer. *)
Inductive JobReply : Type :=
| RequestError (e : error)
| Completion (s : string)
| Timeout.

(** The process-wide state: the calls made so far, newest first, and the
    [versionOnce]/[version] pair ([None] until the first [systemdVersion]). *)
Record World : Type := mkWorld {
  history : list Event;
  version : option Z
}.

(** [cm *dbusConnManager]: the daemon behind the connection.  Each method is
    the whole [cm.retryOnDisconnect(...)] call of the source, answered from
    the history of calls made before it. *)
Record dbusConnManager : Type := mkDbus {
  StartTransientUnitContext :
    list Event -> string -> string -> list Property -> JobReply;
  StopUnitContext : list Event -> string -> string -> JobReply;
  ResetFailedUnitContext : list Event -> string -> option error;
  GetManagerProperty : list Event -> string -> result string;
  getDbusConnection : list Event -> option error;
  SetUnitProperties :
    list Event -> string -> bool -> list Property -> option error
}.

(** The cgroup filesystem and the library functions the driver calls on it
    ([cgroups], [fs], [os], [ioutil], [filepath], [strconv.Unquote]). *)
Record Host : Type := mkHost {
  FindCgroupMountpoint : list Event -> string -> string -> result string;
  GetInitCgroup : list Event -> string -> result string;
  MkdirAll : list Event -> string -> Z -> option error;
  WriteCgroupProc : list Event -> string -> Z -> option error;
  CpusetApplyDir :
    list Event -> string -> configs.Cgroup -> Z -> option error;
  EnterPid : list Event -> gmap string string -> Z -> option error;
  ReadFile : list Event -> string -> result string;
  EnableKernelMemoryAccounting : list Event -> string -> option error;
  SubsystemSet :
    list Event -> string -> string -> configs.Cgroup -> option error;
  CheckCpushares : list Event -> string -> Z -> option error;
  filepath_Clean : string -> string;
  filepath_Join : list string -> string;
  strconv_Unquote : string -> result string
}.

(** Computations that read and extend the world. *)
Definition M (A : Type) : Type := World -> A * World.

Definition ret {A : Type} (a : A) : M A := fun w => (a, w).

Definition bind {A B : Type} (m : M A) (k : A -> M B) : M B :=
  fun w => let (a, w') := m w in k a w'.

Notation "x <- m ;; k" := (bind m (fun x => k))
  (at level 62, m at next level, right associativity).
Notation "m ;;; k" := (bind m (fun _ => k))
  (at level 62, right associativity).

(** One call: answered from the history so far, then recorded. *)
Definition call {A : Type} (ev : Event) (answer : list Event -> A) : M A :=
  fun w => (answer (history w),
            {| history := ev :: history w; version := version w |}).

Definition log (level format : string) (args : list LogArg) : M unit :=
  call (ELog level format args) (fun _ => tt).

(** ** Unit lifecycle ([systemd/common.go]) *)

Definition resetFailedUnit (cm : dbusConnManager) (name : string) : M unit :=
  err <- call (EResetFailedUnit name)
           (fun h => ResetFailedUnitContext cm h name) ;;
  match err with
  | Some e => log "warn" "unable to reset failed unit: %v" [AErr e]
  | None => ret tt
  end.

Definition startUnit (cm : dbusConnManager) (unitName : string)
    (properties : list Property) : M (option error) :=
  reply <- call (EStartTransientUnit unitName "replace" properties)
             (fun h => StartTransientUnitContext cm h unitName "replace"
                         properties) ;;
  match reply with
  | Completion s =>
      if negb (String.eqb s "done") then
        resetFailedUnit cm unitName ;;;
        ret (Some (ErrorString ("error creating systemd unit `" ++ unitName
                                ++ "`: got `" ++ s ++ "`")))
      else ret None
  | Timeout =>
      resetFailedUnit cm unitName ;;;
      ret (Some (ErrorString
                   ("Timeout waiting for systemd to create " ++ unitName)))
  | RequestError err =>
      if negb (isUnitExists (Some err)) then ret (Some err)
      else ret None
  end.

Definition stopUnit (cm : dbusConnManager) (unitName : string)
    : M (option error) :=
  reply <- call (EStopUnit unitName "replace")
             (fun h => StopUnitContext cm h unitName "replace") ;;
  match reply with
  | Completion s =>
      if negb (String.eqb s "done") then
        log "warn" "error removing unit `%s`: got `%s`. Continuing..."
          [AStr unitName; AStr s] ;;;
        ret None
      else ret None
  | Timeout =>
      ret (Some (ErrorString
                   ("Timed out while waiting for systemd to remove "
                    ++ unitName)))
  | RequestError _ => ret None
  end.

Definition getManagerProperty (cm : dbusConnManager) (host : Host)
    (name : string) : M (result string) :=
  r <- call (EGetManagerProperty name)
         (fun h => GetManagerProperty cm h name) ;;
  match r with
  | Err e => ret (Err e)
  | Ok str => ret (strconv_Unquote host str)
  end.

(** ** The daemon's version *)

Definition isDigit (c : ascii) : bool :=
  (48 <=? nat_of_ascii c)%nat && (nat_of_ascii c <=? 57)%nat.

Fixpoint takeDigits (s : string) : string :=
  match s with
  | String c s' => if isDigit c then String c (takeDigits s') else ""
  | EmptyString => ""
  end.

(** Group 1 of the leftmost match of [v?([0-9]+)]: the first run of digits. *)
Fixpoint firstDigits (s : string) : option string :=
  match s with
  | EmptyString => None
  | String c s' => if isDigit c then Some (takeDigits s) else firstDigits s'
  end.

Fixpoint digitsValue (acc : Z) (s : string) : Z :=
  match s with
  | EmptyString => acc
  | String c s' =>
      digitsValue (acc * 10 + (Z.of_nat (nat_of_ascii c) - 48)) s'
  end.

Definition dquote : string := String (ascii_of_nat 34) EmptyString.

(** [strconv.Atoi] on a string of digits: only the range can be wrong. *)
Definition Atoi (s : string) : result Z :=
  let v := digitsValue 0 s in
  if v <=? MaxInt64 then Ok v
  else Err (ErrorString ("strconv.Atoi: parsing " ++ dquote ++ s ++ dquote
                         ++ ": value out of range")).

Definition systemdVersionAtoi (verStr : string) : Z * option error :=
  match firstDigits verStr with
  | None =>
      (0, Some (ErrorString ("can't parse version " ++ verStr
                             ++ ": incorrect number of matches []")))
  | Some digits =>
      match Atoi digits with
      | Err err => (-1, Some (WrapError "can't parse version: " err))
      | Ok ver => (ver, None)
      end
  end.

(** The function run by [versionOnce.Do]. *)
Definition systemdVersionOnce (cm : dbusConnManager) (host : Host) : M Z :=
  r <- getManagerProperty cm host "Version" ;;
  let '(ver, err) :=
    match r with
    | Ok verStr => systemdVersionAtoi verStr
    | Err e => (-1, Some e)
    end in
  match err with
  | Some e =>
      log "error" "unable to get systemd version" [AErr e] ;;;
      ret ver
  | None => ret ver
  end.

Definition systemdVersion (cm : dbusConnManager) (host : Host) : M Z :=
  fun w =>
    match version w with
    | Some v => (v, w)
    | None =>
        let (v, w') := systemdVersionOnce cm host w in
        (v, {| history := history w'; version := Some v |})
    end.

(** ** CPU quota translation ([addCpuQuota]) *)

Definition addCpuQuota (cm : dbusConnManager) (host : Host)
    (properties : list Property) (quota : Z) (period : Z)
    : M (list Property) :=
  properties <-
    (if negb (period =? 0) then
       (* systemd only supports CPUQuotaPeriodUSec since v242 *)
       sdVer <- systemdVersion cm host ;;
       if sdVer >=? 242 then
         ret (properties ++ [newProp "CPUQuotaPeriodUSec" (VUint64 period)])%list
       else
         log "debug"
           "systemd v%d is too old to support CPUQuotaPeriodSec  (setting will still be applied to cgroupfs)"
           [AInt sdVer] ;;;
         ret properties
     else ret properties) ;;
  if negb (quota =? 0) || negb (period =? 0) then
    (* corresponds to USEC_INFINITY in systemd *)
    let cpuQuotaPerSecUSec :=
      if quota >? 0 then
        let period := if period =? 0 then defCPUQuotaPeriod else period in
        let cpuQuotaPerSecUSec :=
          to_uint64 (wrap_int64 (quota * 1000000)) / period in
        if negb (cpuQuotaPerSecUSec mod 10000 =? 0)
        then to_uint64 ((cpuQuotaPerSecUSec / 10000 + 1) * 10000)
        else cpuQuotaPerSecUSec
      else MaxUint64 in
    ret (properties
         ++ [newProp "CPUQuotaPerSecUSec" (VUint64 cpuQuotaPerSecUSec)])%list
  else ret properties.

(** ** The legacy manager *)

(** The controllers of the [fs] package, by variant. *)
Inductive subsystem : Type :=
| CpusetGroup | DevicesGroup | MemoryGroup | CpuGroup | CpuacctGroup
| PidsGroup | BlkioGroup | HugetlbGroup | PerfEventGroup | FreezerGroup
| NetPrioGroup | NetClsGroup
| NameGroup (GroupName : string).

(** Modelled from the spec: the [Name()] method of each controller of the [fs]
    package, which is not part of these sources (the variants cpuset, devices,
    memory, cpu, cpuacct, pids, blkio, hugetlb, perf-event, freezer, net-prio,
    net-cls and the named marker, under their cgroup v1 hierarchy names). *)
Definition subsystem_Name (s : subsystem) : string :=
  match s with
  | CpusetGroup => "cpuset"
  | DevicesGroup => "devices"
  | MemoryGroup => "memory"
  | CpuGroup => "cpu"
  | CpuacctGroup => "cpuacct"
  | PidsGroup => "pids"
  | BlkioGroup => "blkio"
  | HugetlbGroup => "hugetlb"
  | PerfEventGroup => "perf_event"
  | FreezerGroup => "freezer"
  | NetPrioGroup => "net_prio"
  | NetClsGroup => "net_cls"
  | NameGroup GroupName => GroupName
  end.

Definition errSubsystemDoesNotExist : error :=
  ErrorString "cgroup: subsystem does not exist".

Definition subsystemSet := list subsystem.

Fixpoint subsystemSet_Get (s : subsystemSet) (name : string)
    : result subsystem :=
  match s with
  | [] => Err errSubsystemDoesNotExist
  | ss :: rest =>
      if String.eqb (subsystem_Name ss) name then Ok ss
      else subsystemSet_Get rest name
  end.

Definition legacySubsystems : subsystemSet :=
  [ CpusetGroup; DevicesGroup; MemoryGroup; CpuGroup; CpuacctGroup;
    PidsGroup; BlkioGroup; HugetlbGroup; PerfEventGroup; FreezerGroup;
    NetPrioGroup; NetClsGroup; NameGroup "name=systemd" ].

Record LegacyManager : Type := mkLegacyManager {
  Cgroups : configs.Cgroup;        (* what the pointer m.Cgroups points to *)
  Paths : gmap string string       (* nil and empty are not told apart *)
}.

(** The string of a [(string, error)] result: empty on error. *)
Definition pathOf (r : result string) : string :=
  match r with
  | Ok p => p
  | Err _ => ""
  end.

Section Legacy.

(** The daemon connection and the host the manager runs on.  The manager
    starts and stops its unit with [startUnit] and [stopUnit] above, on the
    connection [cm].  The mutex [m.mu] only orders concurrent callers; one
    call is modelled at a time. *)
Variable cm : dbusConnManager.
Variable host : Host.

Definition getSubsystemPath (c : configs.Cgroup) (subsystem : string)
    : M (result string) :=
  mp <- call (EFindCgroupMountpoint (configs.Path c) subsystem)
          (fun h => FindCgroupMountpoint host h (configs.Path c) subsystem) ;;
  match mp with
  | Err err => ret (Err err)
  | Ok mountpoint =>
      ip <- call (EGetInitCgroup subsystem)
              (fun h => GetInitCgroup host h subsystem) ;;
      match ip with
      | Err err => ret (Err err)
      | Ok initPath =>
          (* if pid 1 is systemd 226 or later, it will be in init.scope *)
          let initPath :=
            strings.TrimSuffix (filepath_Clean host initPath) "init.scope" in
          let slice :=
            if negb (String.eqb (configs.Parent c) "")
            then configs.Parent c else "system.slice" in
          match ExpandSlice slice with
          | Err err => ret (Err err)
          | Ok slice =>
              ret (Ok (filepath_Join host
                         [mountpoint; initPath; slice; getUnitName c]))
          end
      end
  end.

Definition join (c : configs.Cgroup) (subsystem : string) (pid : Z)
    : M (result string) :=
  r <- getSubsystemPath c subsystem ;;
  match r with
  | Err err => ret (Err err)
  | Ok path =>
      e1 <- call (EMkdirAll path 493) (fun h => MkdirAll host h path 493) ;;
      match e1 with
      | Some err => ret (Err err)
      | None =>
          e2 <- call (EWriteCgroupProc path pid)
                  (fun h => WriteCgroupProc host h path pid) ;;
          match e2 with
          | Some err => ret (Err err)
          | None => ret (Ok path)
          end
      end
  end.

(** One iteration of the loop of [joinCgroups]: [Some err] returns [err]
    from the function, [None] goes on with the next controller. *)
Definition joinCgroup (c : configs.Cgroup) (pid : Z) (name : string)
    : M (option error) :=
  if String.eqb name "name=systemd" then
    (* let systemd handle this *)
    ret None
  else if String.eqb name "cpuset" then
    r <- getSubsystemPath c name ;;
    match r with
    | Err err =>
        if negb (IsNotFound err) then ret (Some err)
        else call (ECpusetApplyDir "" c pid)
               (fun h => CpusetApplyDir host h "" c pid)
    | Ok path =>
        call (ECpusetApplyDir path c pid)
          (fun h => CpusetApplyDir host h path c pid)
    end
  else
    r <- join c name pid ;;
    match r with
    | Err err =>
        (* Even if it's `not found` error, we'll return err because
           devices cgroup is hard requirement for container security. *)
        if String.eqb name "devices" then ret (Some err)
        (* For other subsystems, omit the `not found` error. *)
        else if negb (IsNotFound err) then ret (Some err)
        else ret None
    | Ok _ => ret None
    end.

Fixpoint joinCgroupsLoop (c : configs.Cgroup) (pid : Z)
    (names : list string) : M (option error) :=
  match names with
  | [] => ret None
  | name :: rest =>
      e <- joinCgroup c pid name ;;
      match e with
      | Some err => ret (Some err)
      | None => joinCgroupsLoop c pid rest
      end
  end.

Definition joinCgroups (c : configs.Cgroup) (pid : Z) : M (option error) :=
  joinCgroupsLoop c pid (map subsystem_Name legacySubsystems).

(** [setKernelMemory] from [os.MkdirAll] on, once [path] is known. *)
Definition setKernelMemoryAt (path : string) : M (option error) :=
  e1 <- call (EMkdirAll path 493) (fun h => MkdirAll host h path 493) ;;
  match e1 with
  | Some err => ret (Some err)
  | None =>
      (* do not try to enable the kernel memory if we already have
         tasks in the cgroup. *)
      let tasks := filepath_Join host [path; "tasks"] in
      rd <- call (EReadFile tasks) (fun h => ReadFile host h tasks) ;;
      match rd with
      | Err err => ret (Some err)
      | Ok content =>
          if (0 <? String.length content)%nat then ret None
          else call (EEnableKernelMemoryAccounting path)
                 (fun h => EnableKernelMemoryAccounting host h path)
      end
  end.

Definition setKernelMemory (c : configs.Cgroup) : M (option error) :=
  r <- getSubsystemPath c "memory" ;;
  match r with
  | Err err =>
      if negb (IsNotFound err) then ret (Some err)
      else setKernelMemoryAt ""
  | Ok path => setKernelMemoryAt path
  end.

Definition genV1ResourcesProperties (c : configs.Cgroup)
    : M (result (list Property)) :=
  let r := configs.Resources_ c in
  let properties : list Property := [] in
  let properties :=
    if negb (configs.Memory r =? 0)
    then (properties
          ++ [newProp "MemoryLimit" (VUint64 (to_uint64 (configs.Memory r)))])%list
    else properties in
  let properties :=
    if negb (configs.CpuShares r =? 0)
    then (properties
          ++ [newProp "CPUShares" (VUint64 (configs.CpuShares r))])%list
    else properties in
  (* cpu.cfs_quota_us and cpu.cfs_period_us are controlled by systemd. *)
  let properties :=
    if negb (configs.CpuQuota r =? 0) && negb (configs.CpuPeriod r =? 0)
    then
      (* corresponds to USEC_INFINITY in systemd *)
      let cpuQuotaPerSecUSec :=
        if configs.CpuQuota r >? 0 then
          let cpuQuotaPerSecUSec :=
            to_uint64 (wrap_int64 (configs.CpuQuota r * 1000000))
            / configs.CpuPeriod r in
          if negb (cpuQuotaPerSecUSec mod 10000 =? 0)
          then to_uint64 ((cpuQuotaPerSecUSec / 10000 + 1) * 10000)
          else cpuQuotaPerSecUSec
        else MaxUint64 in
      (properties
       ++ [newProp "CPUQuotaPerSecUSec" (VUint64 cpuQuotaPerSecUSec)])%list
    else properties in
  let properties :=
    if negb (configs.BlkioWeight r =? 0)
    then (properties
          ++ [newProp "BlockIOWeight"
                (VUint64 (to_uint64 (configs.BlkioWeight r)))])%list
    else properties in
  let properties :=
    if configs.PidsLimit r >? 0
    then (properties
          ++ [newProp "TasksAccounting" (VBool true);
              newProp "TasksMax"
                (VUint64 (to_uint64 (configs.PidsLimit r)))])%list
    else properties in
  (* We have to set kernel memory here, as we can't change it once
     processes have been attached to the cgroup. *)
  if negb (configs.KernelMemory r =? 0) then
    e <- setKernelMemory c ;;
    match e with
    | Some err => ret (Err err)
    | None => ret (Ok properties)
    end
  else ret (Ok properties).


(** The loop of [Apply] over the explicit paths [c.Paths], in the order
    [map_to_list] lists them (Go ranges over a map in no fixed order). *)
Fixpoint applyExplicitPaths (c : configs.Cgroup)
    (items : list (string * string)) (paths : gmap string string)
    : M (result (gmap string string)) :=
  match items with
  | [] => ret (Ok paths)
  | (name, path) :: rest =>
      r <- getSubsystemPath c name ;;
      match r with
      | Err err =>
          (* Don't fail if a cgroup hierarchy was not found, just skip *)
          if IsNotFound err then applyExplicitPaths c rest paths
          else ret (Err err)
      | Ok _ => applyExplicitPaths c rest (<[name := path]> paths)
      end
  end.

(** The last loop of [Apply]: the path of every controller found. *)
Fixpoint collectPaths (c : configs.Cgroup) (subsystems : subsystemSet)
    (paths : gmap string string) : M (result (gmap string string)) :=
  match subsystems with
  | [] => ret (Ok paths)
  | s :: rest =>
      r <- getSubsystemPath c (subsystem_Name s) ;;
      match r with
      | Err err =>
          if IsNotFound err then collectPaths c rest paths
          else ret (Err err)
      | Ok subsystemPath =>
          collectPaths c rest (<[subsystem_Name s := subsystemPath]> paths)
      end
  end.

Definition withPaths (m : LegacyManager) (paths : gmap string string)
    : LegacyManager :=
  {| Cgroups := Cgroups m; Paths := paths |}.

(** The properties [Apply] builds before the resource translation. *)
Definition unitProperties (c : configs.Cgroup) (pid : Z) : list Property :=
  let unitName := getUnitName c in
  let slice :=
    if negb (String.eqb (configs.Parent c) "")
    then configs.Parent c else "system.slice" in
  let properties : list Property :=
    [PropDescription ("libcontainer container " ++ configs.Name c)] in
  (* if we create a slice, the parent is defined via a Wants= *)
  let properties :=
    if strings.HasSuffix unitName ".slice"
    then (properties ++ [PropWants slice])%list
    (* otherwise, we use Slice= *)
    else (properties ++ [PropSlice slice])%list in
  (* only add pid if its valid, -1 is used w/ general slice creation. *)
  let properties :=
    if negb (pid =? -1)
    then (properties ++ [newProp "PIDs" (VUint32s [to_uint32 pid])])%list
    else properties in
  (* Assume scopes always support delegation. *)
  let properties :=
    if negb (strings.HasSuffix unitName ".slice")
    then (properties ++ [newProp "Delegate" (VBool true)])%list
    else properties in
  (* Always enable accounting *)
  let properties :=
    (properties
     ++ [newProp "MemoryAccounting" (VBool true);
         newProp "CPUAccounting" (VBool true);
         newProp "BlockIOAccounting" (VBool true)])%list in
  (properties ++ [newProp "DefaultDependencies" (VBool false)])%list.

(** [Apply] after [startUnit]: the joins, then the path map. *)
Definition applyJoin (m : LegacyManager) (pid : Z)
    : M (option error * LegacyManager) :=
  let c := Cgroups m in
  e2 <- joinCgroups c pid ;;
  match e2 with
  | Some err => ret (Some err, m)
  | None =>
      r <- collectPaths c legacySubsystems ∅ ;;
      match r with
      | Err err => ret (Some err, m)
      | Ok paths => ret (None, withPaths m paths)
      end
  end.

Definition Apply (m : LegacyManager) (pid : Z)
    : M (option error * LegacyManager) :=
  let c := Cgroups m in
  let unitName := getUnitName c in
  match configs.Paths c with
  | Some cPaths =>
      r <- applyExplicitPaths c (map_to_list cPaths) ∅ ;;
      match r with
      | Err err => ret (Some err, m)
      | Ok paths =>
          e <- call (EEnterPid paths pid) (fun h => EnterPid host h paths pid) ;;
          ret (e, withPaths m paths)
      end
  | None =>
      let properties := unitProperties c pid in
      rp <- genV1ResourcesProperties c ;;
      match rp with
      | Err err => ret (Some err, m)
      | Ok resourcesProperties =>
          let properties := (properties ++ resourcesProperties)%list in
          let properties := (properties ++ configs.SystemdProps c)%list in
          e1 <- startUnit cm unitName properties ;;
          match e1 with
          | Some err => ret (Some err, m)
          | None => applyJoin m pid
          end
      end
  end.

Definition Destroy (m : LegacyManager) : M (option error * LegacyManager) :=
  match configs.Paths (Cgroups m) with
  | Some _ => ret (None, m)
  | None =>
      let unitName := getUnitName (Cgroups m) in
      e <- stopUnit cm unitName ;;
      match e with
      | Some err => ret (Some err, m)
      | None => ret (None, withPaths m ∅)
      end
  end.

Definition GetPaths (m : LegacyManager) : gmap string string := Paths m.

Definition Freeze (m : LegacyManager) (state : configs.FreezerState)
    : M (option error * LegacyManager) :=
  r <- getSubsystemPath (Cgroups m) "freezer" ;;
  match r with
  | Err err => ret (Some err, m)
  | Ok path =>
      let prevState := configs.Freezer (configs.Resources_ (Cgroups m)) in
      let m1 :=
        {| Cgroups := configs.setFreezer (Cgroups m) state;
           Paths := Paths m |} in
      match subsystemSet_Get legacySubsystems "freezer" with
      | Err err => ret (Some err, m1)
      | Ok freezer =>
          e <- call (ESubsystemSet (subsystem_Name freezer) path (Cgroups m1))
                 (fun h => SubsystemSet host h (subsystem_Name freezer) path
                             (Cgroups m1)) ;;
          match e with
          | Some err =>
              ret (Some err,
                   {| Cgroups := configs.setFreezer (Cgroups m1) prevState;
                      Paths := Paths m1 |})
          | None => ret (None, m1)
          end
      end
  end.

(** The loop of [Set] over the controllers. *)
Fixpoint setSubsystems (c : configs.Cgroup) (subsystems : subsystemSet)
    : M (option error) :=
  match subsystems with
  | [] => ret None
  | sys :: rest =>
      (* Get the subsystem path, but don't error out for not found cgroups. *)
      r <- getSubsystemPath c (subsystem_Name sys) ;;
      let fatal :=
        match r with
        | Err err => if negb (IsNotFound err) then Some err else None
        | Ok _ => None
        end in
      match fatal with
      | Some err => ret (Some err)
      | None =>
          let path := pathOf r in
          e <- call (ESubsystemSet (subsystem_Name sys) path c)
                 (fun h => SubsystemSet host h (subsystem_Name sys) path c) ;;
          match e with
          | Some err => ret (Some err)
          | None => setSubsystems c rest
          end
      end
  end.

Definition Set_ (m : LegacyManager) (container : configs.Config)
    : M (option error * LegacyManager) :=
  (* If Paths are set, then we are just joining cgroups paths
     and there is no need to set any values. *)
  match configs.Paths (Cgroups m) with
  | Some _ => ret (None, m)
  | None =>
      let c := configs.Cgroups container in
      rp <- genV1ResourcesProperties c ;;
      match rp with
      | Err err => ret (Some err, m)
      | Ok properties =>
          e0 <- call EGetDbusConnection (fun h => getDbusConnection cm h) ;;
          match e0 with
          | Some err => ret (Some err, m)
          | None =>
              e1 <- call (ESetUnitProperties (getUnitName c) true properties)
                      (fun h => SetUnitProperties cm h (getUnitName c) true
                                  properties) ;;
              match e1 with
              | Some err => ret (Some err, m)
              | None =>
                  e2 <- setSubsystems c legacySubsystems ;;
                  match e2 with
                  | Some err => ret (Some err, m)
                  | None =>
                      let cpu := default "" (Paths m !! "cpu") in
                      if negb (String.eqb cpu "") then
                        e3 <- call (ECheckCpushares cpu
                                      (configs.CpuShares (configs.Resources_ c)))
                                (fun h => CheckCpushares host h cpu
                                   (configs.CpuShares (configs.Resources_ c))) ;;
                        ret (e3, m)
                      else ret (None, m)
                  end
              end
          end
      end
  end.

End Legacy.

(** The [CPUQuotaPerSecUSec] properties of a list, in order. *)
Definition quotaProperties (properties : list Property) : list Property :=
  List.filter (fun p => String.eqb (PropName p) "CPUQuotaPerSecUSec")
    properties.

(** ** Slice paths, as the naming scheme describes them *)

(** Segment [k] of the nested path of the components [cs]: the first [k]
    components joined by dashes, as a slice name. *)
Definition sliceSegment (cs : list string) (k : nat) : string :=
  "/" ++ String.concat "-" (firstn k cs) ++ ".slice".

(** The nested path: segments 1 to [length cs], each one level deeper. *)
Definition nestedSlicePath (cs : list string) : string :=
  String.concat "" (map (sliceSegment cs) (seq 1 (length cs))).

(** The value both quota translations compute for [quota > 0]: the block
    that [addCpuQuota] and [genV1ResourcesProperties] each write out. *)
Definition roundedQuotaPerSec (quota period : Z) : Z :=
  let cpuQuotaPerSecUSec :=
    to_uint64 (wrap_int64 (quota * 1000000)) / period in
  if negb (cpuQuotaPerSecUSec mod 10000 =? 0)
  then to_uint64 ((cpuQuotaPerSecUSec / 10000 + 1) * 10000)
  else cpuQuotaPerSecUSec.

(** The dash-joined prefix that the loop of [ExpandSlice] carries after the
    components [done]. *)
Definition dashed (done : list string) : string :=
  String.concat "" (map (fun c => c ++ "-") done).

(** ** Scripted daemons and hosts, to run the model on concrete inputs *)

Module Scripted.

(** A daemon that answers every start with [startReply] and every stop
    with [stopReply], and reports the given version string. *)
Definition daemon (startReply stopReply : JobReply) (ver : string)
    : dbusConnManager :=
  {| StartTransientUnitContext := fun _ _ _ _ => startReply;
     StopUnitContext := fun _ _ _ => stopReply;
     ResetFailedUnitContext := fun _ _ => None;
     GetManagerProperty := fun _ _ => Ok ver;
     getDbusConnection := fun _ => None;
     SetUnitProperties := fun _ _ _ _ => None |}.

(** A host on which the hierarchies in [missing] are not mounted, the
    hierarchies in [broken] fail with another error, and the controller
    named [setFails] cannot be set. *)
Definition machine (missing broken : list string) (setFails : string)
    : Host :=
  {| FindCgroupMountpoint := fun _ _ subsystem =>
       if existsb (String.eqb subsystem) missing
       then Err (NotFoundError subsystem)
       else if existsb (String.eqb subsystem) broken
       then Err (ErrorString ("cannot read mountinfo for " ++ subsystem))
       else Ok ("/sys/fs/cgroup/" ++ subsystem);
     GetInitCgroup := fun _ _ => Ok "/";
     MkdirAll := fun _ _ _ => None;
     WriteCgroupProc := fun _ _ _ => None;
     CpusetApplyDir := fun _ _ _ _ => None;
     EnterPid := fun _ _ _ => None;
     ReadFile := fun _ _ => Ok "";
     EnableKernelMemoryAccounting := fun _ _ => None;
     SubsystemSet := fun _ name _ _ =>
       if String.eqb name setFails
       then Some (ErrorString ("cannot set " ++ name))
       else None;
     CheckCpushares := fun _ _ _ => None;
     filepath_Clean := fun p => p;
     filepath_Join := fun elems => String.concat "/" elems;
     strconv_Unquote := fun s => Ok s |}.

Definition world0 : World := {| history := []; version := None |}.

Definition resources (quota period : Z) : configs.Resources :=
  {| configs.Memory := 0; configs.CpuShares := 0;
     configs.CpuQuota := quota; configs.CpuPeriod := period;
     configs.BlkioWeight := 0; configs.PidsLimit := 0;
     configs.KernelMemory := 0; configs.Freezer := "" |}.

(** The group "g" under "system.slice", daemon-actuated. *)
Definition cgroup (quota period : Z) : configs.Cgroup :=
  {| configs.Name := "g"; configs.Parent := "system.slice";
     configs.ScopePrefix := "runc"; configs.Path := "";
     configs.Paths := None;
     configs.Resources_ := resources quota period;
     configs.SystemdProps := [] |}.

(** The same group in explicit-path mode. *)
Definition cgroupWithPaths : configs.Cgroup :=
  {| configs.Name := "g"; configs.Parent := "system.slice";
     configs.ScopePrefix := "runc"; configs.Path := "";
     configs.Paths := Some {[ "memory" := "/sys/fs/cgroup/memory/g" ]};
     configs.Resources_ := resources 0 0;
     configs.SystemdProps := [] |}.

Definition manager (c : configs.Cgroup) : LegacyManager :=
  {| Cgroups := c;
     Paths := {[ "cpu" := "/sys/fs/cgroup/cpu/system.slice/runc-g.scope" ]} |}.

End Scripted.

(** ** CPU and memory-node affinity ([addCpuset]) *)

Section Cpuset.

(** [RangeToBits] and the formatting verb [%q] are not part of these sources,
    and [Variant] has no constructor for a byte slice: [RangeToBits] is the
    conversion, [bytesVariant] is [dbus.MakeVariant] on its result and
    [Quote] is what [%q] prints. *)
Variable RangeToBits : string -> result (list Z).
Variable bytesVariant : list Z -> Variant.
Variable Quote : string -> string.

(** [addCpuset] returns its error and the list [*props] as it leaves it. *)
Definition addCpuset (cm : dbusConnManager) (host : Host)
    (props : list Property) (cpus mems : string)
    : M (option error * list Property) :=
  if String.eqb cpus "" && String.eqb mems "" then ret (None, props)
  else
    (* systemd only supports AllowedCPUs/AllowedMemoryNodes since v244 *)
    sdVer <- systemdVersion cm host ;;
    if sdVer <? 244 then
      log "debug"
        "systemd v%d is too old to support AllowedCPUs/AllowedMemoryNodes (settings will still be applied to cgroupfs)"
        [AInt sdVer] ;;;
      ret (None, props)
    else
      let afterCpus : option error * list Property :=
        if negb (String.eqb cpus "") then
          match RangeToBits cpus with
          | Err err =>
              (Some (WrapError ("resources.CPU.Cpus=" ++ Quote cpus
                                ++ " conversion error: ") err), props)
          | Ok bits =>
              (None, (props ++ [newProp "AllowedCPUs" (bytesVariant bits)])%list)
          end
        else (None, props) in
      match afterCpus with
      | (Some err, props) => ret (Some err, props)
      | (None, props) =>
          if negb (String.eqb mems "") then
            match RangeToBits mems with
            | Err err =>
                ret (Some (WrapError ("resources.CPU.Mems=" ++ Quote mems
                                      ++ " conversion error: ") err), props)
            | Ok bits =>
                ret (None,
                     (props ++ [newProp "AllowedMemoryNodes"
                                  (bytesVariant bits)])%list)
            end
          else ret (None, props)
      end.

End Cpuset.

(** ** Kinds of calls *)

(** Is the event a request to the service-manager daemon? *)
Definition isDaemonCall (ev : Event) : bool :=
  match ev with
  | EStartTransientUnit _ _ _ | EStopUnit _ _ | EResetFailedUnit _
  | EGetManagerProperty _ | EGetDbusConnection
  | ESetUnitProperties _ _ _ => true
  | _ => false
  end.

(** Does the event change the cgroup filesystem? *)
Definition isWrite (ev : Event) : bool :=
  match ev with
  | EMkdirAll _ _ | EWriteCgroupProc _ _ | ECpusetApplyDir _ _ _
  | EEnterPid _ _ | EEnableKernelMemoryAccounting _
  | ESubsystemSet _ _ _ => true
  | _ => false
  end.

(** [extends new w w']: the world [w'] is [w] after the calls [new]
    (newest first), with the same cached version. *)
Definition extends (new : list Event) (w w' : World) : Prop :=
  history w' = (new ++ history w)%list /\ version w' = version w.

(** A string without digits, and a string of digits only. *)
Definition noDigits (s : string) : Prop :=
  Forall (fun c => isDigit c = false) (list_ascii_of_string s).
Definition allDigits (s : string) : Prop :=
  Forall (fun c => isDigit c = true) (list_ascii_of_string s).

(** A daemon that answers no request: every call fails with [err]. *)
Definition unreachableDaemon (err : error) : dbusConnManager :=
  {| StartTransientUnitContext := fun _ _ _ _ => RequestError err;
     StopUnitContext := fun _ _ _ => RequestError err;
     ResetFailedUnitContext := fun _ _ => Some err;
     GetManagerProperty := fun _ _ => Err err;
     getDbusConnection := fun _ => Some err;
     SetUnitProperties := fun _ _ _ _ => Some err |}.


(** The group "g" with a memory and a kernel-memory limit. *)
Definition cgroupWithMemory (memory kernelMemory : Z) : configs.Cgroup :=
  {| configs.Name := "g"; configs.Parent := "system.slice";
     configs.ScopePrefix := "runc"; configs.Path := "";
     configs.Paths := None;
     configs.Resources_ :=
       {| configs.Memory := memory; configs.CpuShares := 0;
          configs.CpuQuota := 0; configs.CpuPeriod := 0;
          configs.BlkioWeight := 0; configs.PidsLimit := 0;
          configs.KernelMemory := kernelMemory; configs.Freezer := "" |};
     configs.SystemdProps := [] |}.

(** [onlyCalls P m]: whatever the world, [m] only adds calls that satisfy
    [P], and leaves the cached version alone. *)
Definition onlyCalls {A : Type} (P : Event -> Prop) (m : M A) : Prop :=
  forall w, exists new, extends new w (snd (m w)) /\ Forall P new.

(** A conversion that knows the range "0-3" only. *)
Definition rangeToBitsOf03 (s : string) : result (list Z) :=
  if String.eqb s "0-3" then Ok [15]
  else Err (ErrorString ("bad range " ++ s)).

(** A call that is no request to the daemon. *)
Definition quiet (ev : Event) : Prop := isDaemonCall ev = false.

(** A lookup: a call that reads the cgroup layout. *)
Definition isLookup (ev : Event) : Prop :=
  isWrite ev = false /\ isDaemonCall ev = false.

(** The group "g" under a parent slice of the given name. *)
Definition cgroupUnder (parent : string) : configs.Cgroup :=
  {| configs.Name := "g"; configs.Parent := parent;
     configs.ScopePrefix := "runc"; configs.Path := "";
     configs.Paths := None;
     configs.Resources_ := Scripted.resources 0 0;
     configs.SystemdProps := [] |}.

(** * Properties *)

(** ** Strings *)

(* stdpp keeps [simpl] from unfolding string append; the proofs below
   compute with it. *)
#[local] Arguments String.append !_ _ / : simpl nomatch.

Section StringFacts.

Lemma append_empty_r (s : string) : s ++ "" = s.
Proof. induction s as [|c s IH]; simpl; [reflexivity | now rewrite IH]. Qed.

Lemma append_assoc (a b c : string) : (a ++ b) ++ c = a ++ (b ++ c).
Proof. induction a as [|x a IH]; simpl; [reflexivity | now rewrite IH]. Qed.

Lemma length_append (a b : string) :
  String.length (a ++ b) = (String.length a + String.length b)%nat.
Proof. induction a as [|x a IH]; simpl; [reflexivity | now rewrite IH]. Qed.

Lemma substring_all (s : string) : substring 0 (String.length s) s = s.
Proof. induction s as [|c s IH]; simpl; [reflexivity | now rewrite IH]. Qed.

Lemma substring_append_r (a b : string) :
  substring (String.length a) (String.length b) (a ++ b) = b.
Proof. induction a as [|x a IH]; simpl; [apply substring_all | exact IH]. Qed.

Lemma substring_append_l (a b : string) :
  substring 0 (String.length a) (a ++ b) = a.
Proof. induction a as [|x a IH]; simpl; [now destruct b | now rewrite IH]. Qed.

Lemma substring_split (s : string) :
  forall n, (n <= String.length s)%nat ->
    substring 0 n s ++ substring n (String.length s - n) s = s.
Proof.
  induction s as [|c s IH]; intros [|n] Hn; simpl in *; try reflexivity.
  - now rewrite substring_all.
  - rewrite IH by lia. reflexivity.
Qed.

Lemma HasSuffix_length (s suffix : string) :
  strings.HasSuffix s suffix = true ->
  (String.length suffix <= String.length s)%nat.
Proof.
  unfold strings.HasSuffix. intros H.
  apply andb_prop in H as [H _]. now apply Nat.leb_le.
Qed.

(** A string with a suffix is what [TrimSuffix] leaves, then the suffix. *)
Lemma HasSuffix_split (s suffix : string) :
  strings.HasSuffix s suffix = true ->
  s = strings.TrimSuffix s suffix ++ suffix.
Proof.
  intros H. unfold strings.TrimSuffix. rewrite H.
  pose proof (HasSuffix_length _ _ H) as Hlen.
  unfold strings.HasSuffix in H. apply andb_prop in H as [_ H].
  apply String.eqb_eq in H.
  pose proof (substring_split s (String.length s - String.length suffix)) as Hs.
  replace (String.length s - (String.length s - String.length suffix))%nat
    with (String.length suffix) in Hs by lia.
  rewrite H in Hs. symmetry. apply Hs. lia.
Qed.

Lemma HasSuffix_append (a suffix suffix' : string) :
  String.length suffix = String.length suffix' ->
  strings.HasSuffix (a ++ suffix) suffix' = String.eqb suffix suffix'.
Proof.
  intros Hlen. unfold strings.HasSuffix.
  rewrite length_append, <- Hlen.
  replace (String.length suffix <=? String.length a + String.length suffix)%nat
    with true by (symmetry; apply Nat.leb_le; lia).
  replace (String.length a + String.length suffix - String.length suffix)%nat
    with (String.length a) by lia.
  now rewrite substring_append_r.
Qed.

Lemma TrimSuffix_append (a suffix : string) :
  strings.TrimSuffix (a ++ suffix) suffix = a.
Proof.
  unfold strings.TrimSuffix.
  rewrite HasSuffix_append, String.eqb_refl by reflexivity.
  rewrite length_append.
  replace (String.length a + String.length suffix - String.length suffix)%nat
    with (String.length a) by lia.
  apply substring_append_l.
Qed.

Lemma concat_empty_cons (x : string) (l : list string) :
  String.concat "" (x :: l) = x ++ String.concat "" l.
Proof. destruct l; simpl; [symmetry; apply append_empty_r | reflexivity]. Qed.

Lemma concat_empty_app (l1 l2 : list string) :
  String.concat "" (l1 ++ l2)%list
  = String.concat "" l1 ++ String.concat "" l2.
Proof.
  induction l1 as [|x l1 IH]; [reflexivity|].
  change ((x :: l1) ++ l2)%list with (x :: (l1 ++ l2))%list.
  now rewrite !concat_empty_cons, IH, append_assoc.
Qed.

End StringFacts.

(** ** Slice path expansion *)

Section ExpandSliceFacts.

Lemma dashed_snoc (done : list string) (c : string) :
  dashed (done ++ [c]) = dashed done ++ c ++ "-".
Proof.
  unfold dashed. rewrite map_app, concat_empty_app. simpl.
  reflexivity.
Qed.

Lemma concat_dash_snoc (done : list string) (c : string) :
  String.concat "-" (done ++ [c]) = dashed done ++ c.
Proof.
  induction done as [|x done IH]; [reflexivity|].
  unfold dashed in *. simpl map. rewrite concat_empty_cons.
  change ((x :: done) ++ [c])%list with (x :: (done ++ [c]))%list.
  assert (Hcons : String.concat "-" (x :: (done ++ [c]))
                  = x ++ "-" ++ String.concat "-" (done ++ [c])).
  { destruct done; reflexivity. }
  rewrite Hcons, IH, !append_assoc. reflexivity.
Qed.

Lemma firstn_length_snoc (done rest : list string) (c : string) :
  firstn (S (List.length done)) (done ++ c :: rest) = (done ++ [c])%list.
Proof.
  induction done as [|x done IH]; simpl; [reflexivity | now rewrite IH].
Qed.

(** An empty component anywhere makes the loop fail, whatever it has
    accumulated. *)
Lemma expandComponents_empty (slice suffix : string) (cs : list string) :
  In "" cs ->
  forall path prefix,
    expandComponents slice suffix cs path prefix
    = Err (invalidSliceName slice).
Proof.
  induction cs as [|c cs IH]; intros Hin path prefix; [destruct Hin|].
  simpl. destruct (String.eqb_spec c "") as [->|Hc]; [reflexivity|].
  destruct Hin as [Heq|Hin]; [congruence|]. now apply IH.
Qed.

(** Loop invariant: after the components [done], [path] holds their
    segments and [prefix] their dashed names. *)
Lemma expandComponents_nested (slice : string) (rest : list string) :
  forall done,
    ~ In "" rest ->
    expandComponents slice ".slice" rest
      (String.concat ""
         (map (sliceSegment (done ++ rest)) (seq 1 (List.length done))))
      (dashed done)
    = Ok (nestedSlicePath (done ++ rest)).
Proof.
  induction rest as [|c rest IH]; intros done Hne.
  - simpl. unfold nestedSlicePath. now rewrite app_nil_r.
  - simpl. destruct (String.eqb_spec c "") as [->|Hc];
      [exfalso; apply Hne; now left|].
    specialize (IH (done ++ [c])%list).
    rewrite <- app_assoc in IH. simpl in IH.
    rewrite <- IH by (intros Hin; apply Hne; now right).
    f_equal; [|now rewrite dashed_snoc].
    rewrite length_app, Nat.add_comm. simpl List.length.
    rewrite seq_S, map_app, concat_empty_app. simpl.
    f_equal. unfold sliceSegment.
    rewrite firstn_length_snoc, concat_dash_snoc, !append_assoc.
    reflexivity.
Qed.

(** A name with the suffix whose trimmed form is "-" is the root slice. *)
Lemma TrimSuffix_root (slice : string) :
  slice <> "-.slice" ->
  strings.HasSuffix slice ".slice" = true ->
  String.eqb (strings.TrimSuffix slice ".slice") "-" = false.
Proof.
  intros Hne Hsuf. apply String.eqb_neq. intros Heq.
  apply Hne. rewrite (HasSuffix_split _ _ Hsuf), Heq. reflexivity.
Qed.

Lemma ExpandSlice_invalid (slice : string) :
  slice <> "-.slice" ->
  strings.HasSuffix slice ".slice" = false
  \/ strings.Contains slice "/" = true
  \/ In "" (strings.Split (strings.TrimSuffix slice ".slice") "-") ->
  ExpandSlice slice = Err (invalidSliceName slice).
Proof.
  intros Hne Hbad. unfold ExpandSlice.
  destruct (strings.HasSuffix slice ".slice") eqn:Hsuf;
    [|now rewrite orb_true_r].
  apply HasSuffix_length in Hsuf as Hlen.
  replace (String.length slice <? String.length ".slice")%nat with false
    by (symmetry; apply Nat.ltb_ge; exact Hlen).
  simpl orb.
  destruct (strings.Contains slice "/") eqn:Hsep; [reflexivity|].
  rewrite (TrimSuffix_root slice Hne Hsuf).
  destruct Hbad as [Hbad|[Hbad|Hbad]]; try discriminate.
  now apply expandComponents_empty.
Qed.

Lemma ExpandSlice_valid (slice : string) :
  slice <> "-.slice" ->
  strings.HasSuffix slice ".slice" = true ->
  strings.Contains slice "/" = false ->
  ~ In "" (strings.Split (strings.TrimSuffix slice ".slice") "-") ->
  ExpandSlice slice
  = Ok (nestedSlicePath
          (strings.Split (strings.TrimSuffix slice ".slice") "-")).
Proof.
  intros Hne Hsuf Hsep Hcomp. unfold ExpandSlice.
  apply HasSuffix_length in Hsuf as Hlen.
  replace (String.length slice <? String.length ".slice")%nat with false
    by (symmetry; apply Nat.ltb_ge; exact Hlen).
  rewrite Hsuf, Hsep, (TrimSuffix_root slice Hne Hsuf). simpl orb. cbv iota.
  exact (expandComponents_nested slice _ [] Hcomp).
Qed.

(** Splitting and joining. *)

Lemma Contains_cons (ch c : ascii) (s : string) :
  strings.Contains (String c s) (String ch "")
  = Ascii.eqb ch c || strings.Contains s (String ch "").
Proof.
  cbn [strings.Contains strings.HasPrefix].
  assert (Hempty : strings.HasPrefix s "" = true) by now destruct s.
  now rewrite Hempty, andb_true_r.
Qed.

Lemma Contains_append (ch : ascii) (a b : string) :
  strings.Contains (a ++ b) (String ch "")
  = strings.Contains a (String ch "") || strings.Contains b (String ch "").
Proof.
  induction a as [|c a IH].
  - cbn [String.append]. now destruct b.
  - cbn [String.append]. now rewrite !Contains_cons, IH, orb_assoc.
Qed.

Lemma Split_not_nil (sep : ascii) (s : string) : strings.Split s sep <> [].
Proof.
  destruct s as [|c s]; cbn [strings.Split]; [discriminate|].
  destruct (Ascii.eqb c sep); [discriminate|].
  destruct (strings.Split s sep); discriminate.
Qed.

Lemma Split_append (sep : ascii) (a rest : string) :
  strings.Contains a (String sep "") = false ->
  strings.Split (a ++ rest) sep
  = match strings.Split rest sep with
    | [] => [a]
    | f :: fs => (a ++ f) :: fs
    end.
Proof.
  induction a as [|c a IH]; intros Hfree.
  - cbn [String.append]. pose proof (Split_not_nil sep rest).
    now destruct (strings.Split rest sep).
  - rewrite Contains_cons in Hfree. apply orb_false_elim in Hfree as [Hc Ha].
    cbn [String.append strings.Split].
    rewrite Ascii.eqb_sym, Hc, (IH Ha).
    now destruct (strings.Split rest sep).
Qed.

Lemma Split_concat (sep : ascii) (cs : list string) :
  cs <> [] ->
  Forall (fun c => strings.Contains c (String sep "") = false) cs ->
  strings.Split (String.concat (String sep "") cs) sep = cs.
Proof.
  induction cs as [|c cs IH]; intros Hne Hfree; [congruence|].
  inversion Hfree as [|? ? Hc Hcs]; subst.
  destruct cs as [|c' cs].
  - cbn [String.concat]. rewrite <- (append_empty_r c) at 1.
    rewrite (Split_append sep c "" Hc). cbn [strings.Split].
    now rewrite append_empty_r.
  - change (String.concat (String sep "") (c :: c' :: cs))
      with (c ++ String sep (String.concat (String sep "") (c' :: cs))).
    rewrite (Split_append sep c _ Hc). cbn [strings.Split].
    rewrite Ascii.eqb_refl, IH by (congruence || assumption).
    now rewrite append_empty_r.
Qed.

Lemma Contains_concat (ch sep : ascii) (cs : list string) :
  Ascii.eqb ch sep = false ->
  Forall (fun c => strings.Contains c (String ch "") = false) cs ->
  strings.Contains (String.concat (String sep "") cs) (String ch "") = false.
Proof.
  intros Hsep. induction cs as [|c cs IH]; intros Hfree; [reflexivity|].
  inversion Hfree as [|? ? Hc Hcs]; subst.
  destruct cs as [|c' cs]; [exact Hc|].
  change (String.concat (String sep "") (c :: c' :: cs))
    with (c ++ String sep (String.concat (String sep "") (c' :: cs))).
  now rewrite Contains_append, Hc, Contains_cons, Hsep, (IH Hcs).
Qed.

(** The slice named by a list of components expands to their nested path. *)
Lemma ExpandSlice_components (cs : list string) :
  cs <> [] ->
  Forall (fun c => c <> "" /\ strings.Contains c "-" = false /\ strings.Contains c "/" = false) cs ->
  ExpandSlice (String.concat "-" cs ++ ".slice") = Ok (nestedSlicePath cs).
Proof.
  intros Hne Hcs.
  assert (Hdash : Forall (fun c => strings.Contains c "-" = false) cs)
    by (eapply List.Forall_impl; [|exact Hcs]; now intros c (_ & H & _)).
  assert (Hslash : Forall (fun c => strings.Contains c "/" = false) cs)
    by (eapply List.Forall_impl; [|exact Hcs]; now intros c (_ & _ & H)).
  assert (Hempty : ~ In "" cs).
  { intros Hin. rewrite List.Forall_forall in Hcs.
    now destruct (Hcs "" Hin) as (H & _). }
  pose proof (Split_concat "-"%char cs Hne Hdash) as Hsplit.
  rewrite <- Hsplit at 2.
  rewrite <- (TrimSuffix_append (String.concat "-" cs) ".slice") at 2.
  apply ExpandSlice_valid.
  - intros Heq.
    apply (f_equal (fun s => strings.TrimSuffix s ".slice")) in Heq.
    rewrite TrimSuffix_append in Heq. rewrite Heq in Hsplit.
    apply Hempty. rewrite <- Hsplit. now left.
  - now rewrite HasSuffix_append.
  - rewrite Contains_append,
      (Contains_concat "/"%char "-"%char cs eq_refl Hslash).
    reflexivity.
  - now rewrite TrimSuffix_append, Hsplit.
Qed.

End ExpandSliceFacts.

(** C1.  [ExpandSlice] maps a valid dash-separated slice name to the nested
    path built by walking its components left to right
    ("test-a-b.slice" gives "/test.slice/test-a.slice/test-a-b.slice"), maps
    the root slice "-.slice" to "/", and returns the invalid-slice-name error
    for every other input that does not end in ".slice", contains "/", or has
    an empty dash-separated component ("test--a.slice", "-test.slice"). *)
Theorem ExpandSlice_spec :
  ExpandSlice "test-a-b.slice" = Ok "/test.slice/test-a.slice/test-a-b.slice"
  /\ ExpandSlice "-.slice" = Ok "/"
  /\ ExpandSlice "test--a.slice" = Err (invalidSliceName "test--a.slice")
  /\ ExpandSlice "-test.slice" = Err (invalidSliceName "-test.slice")
  /\ (forall slice : string,
        slice <> "-.slice" ->
        strings.HasSuffix slice ".slice" = false
        \/ strings.Contains slice "/" = true
        \/ In "" (strings.Split (strings.TrimSuffix slice ".slice") "-") ->
        ExpandSlice slice = Err (invalidSliceName slice))
  /\ (forall slice : string,
        slice <> "-.slice" ->
        strings.HasSuffix slice ".slice" = true ->
        strings.Contains slice "/" = false ->
        ~ In "" (strings.Split (strings.TrimSuffix slice ".slice") "-") ->
        ExpandSlice slice
        = Ok (nestedSlicePath
                (strings.Split (strings.TrimSuffix slice ".slice") "-")))
  /\ (forall components : list string,
        components <> [] ->
        Forall (fun c => c <> ""
                         /\ strings.Contains c "-" = false
                         /\ strings.Contains c "/" = false) components ->
        ExpandSlice (String.concat "-" components ++ ".slice")
        = Ok (nestedSlicePath components)).
Proof.
  repeat split; try reflexivity.
  - exact ExpandSlice_invalid.
  - exact ExpandSlice_valid.
  - exact ExpandSlice_components.
Qed.

(** The theorem at "a/b.slice" (a path separator), at "ab" (no suffix), at
    "test-a-b.slice" and at the components a, b, c. *)
Lemma ExpandSlice_spec_witness :
  ExpandSlice "a/b.slice" = Err (invalidSliceName "a/b.slice")
  /\ ExpandSlice "ab" = Err (invalidSliceName "ab")
  /\ ExpandSlice "test-a-b.slice" = Ok (nestedSlicePath ["test"; "a"; "b"])
  /\ ExpandSlice (String.concat "-" ["a"; "b"; "c"] ++ ".slice")
     = Ok (nestedSlicePath ["a"; "b"; "c"]).
Proof.
  destruct ExpandSlice_spec as (_ & _ & _ & _ & Hbad & Hgood & Hcomps).
  split; [|split; [|split]].
  - apply Hbad; [discriminate | right; left; reflexivity].
  - apply Hbad; [discriminate | left; reflexivity].
  - apply (Hgood "test-a-b.slice");
      [discriminate | reflexivity | reflexivity |].
    simpl. intros [H|[H|[H|[]]]]; discriminate.
  - apply (Hcomps ["a"; "b"; "c"]); [discriminate|].
    repeat constructor; discriminate.
Defined.

(** ** Unit naming *)

(** C9.  [getUnitName c] is [c.Name] when [c.Name] ends in ".slice" and
    [c.ScopePrefix + "-" + c.Name + ".scope"] otherwise, and
    [getUnitType (getUnitName c)] is "Slice" exactly when [c.Name] ends in
    ".slice" and "Scope" otherwise. *)
Theorem getUnitName_getUnitType (c : configs.Cgroup) :
  getUnitName c
  = (if strings.HasSuffix (configs.Name c) ".slice"
     then configs.Name c
     else configs.ScopePrefix c ++ "-" ++ configs.Name c ++ ".scope")
  /\ getUnitType (getUnitName c)
     = (if strings.HasSuffix (configs.Name c) ".slice"
        then "Slice" else "Scope")
  /\ (getUnitType (getUnitName c) = "Slice"
      <-> strings.HasSuffix (configs.Name c) ".slice" = true).
Proof.
  assert (Hscope : forall a b : string,
             strings.HasSuffix (a ++ "-" ++ b ++ ".scope") ".slice" = false).
  { intros a b. rewrite <- !append_assoc.
    now rewrite HasSuffix_append by reflexivity. }
  unfold getUnitName, getUnitType.
  destruct (strings.HasSuffix (configs.Name c) ".slice") eqn:Hname;
    cbn [negb].
  - rewrite Hname. repeat split; reflexivity.
  - rewrite Hscope. repeat split; try reflexivity; discriminate.
Qed.

(** ** CPU quota translation *)

Section QuotaFacts.

Lemma to_uint64_wrap_int64 (z : Z) : to_uint64 (wrap_int64 z) = z mod 2 ^ 64.
Proof.
  unfold to_uint64, wrap_int64.
  rewrite Zminus_mod_idemp_l.
  replace (z + 2 ^ 63 - 2 ^ 63) with z by lia. reflexivity.
Qed.

Lemma gtb_nonpos (z : Z) : z <= 0 -> (z >? 0) = false.
Proof. intros H. rewrite Z.gtb_ltb. now apply Z.ltb_ge. Qed.

(** Without overflow of the product, the translation yields a multiple of
    10000 that is at least the floor of the exact value, and less than
    10000 above it. *)
Lemma roundedQuotaPerSec_no_overflow (quota period : Z) :
  0 < quota -> quota * 1000000 < 2 ^ 64 -> 0 < period ->
  roundedQuotaPerSec quota period mod 10000 = 0
  /\ quota * 1000000 / period <= roundedQuotaPerSec quota period
     < quota * 1000000 / period + 10000.
Proof.
  intros Hq Hov Hp. unfold roundedQuotaPerSec.
  rewrite to_uint64_wrap_int64, (Z.mod_small (quota * 1000000)) by lia.
  change (2 ^ 64) with 18446744073709551616 in *.
  remember (quota * 1000000 / period) as x eqn:Ex.
  assert (Hx : 0 <= x <= quota * 1000000).
  { subst x. split; [apply Z.div_pos; lia|].
    apply Z.div_le_upper_bound; nia. }
  pose proof (Z.div_mod x 10000 ltac:(lia)) as Hdm.
  pose proof (Z.mod_pos_bound x 10000 eq_refl) as Hmb.
  (* x is at most the largest multiple of 10^6 under 2^64 *)
  assert (Hq' : quota <= 18446744073709) by (clear - Hov; lia).
  destruct (x mod 10000 =? 0) eqn:Hm; cbn [negb].
  - apply Z.eqb_eq in Hm. split; [assumption | clear; lia].
  - apply Z.eqb_neq in Hm.
    unfold to_uint64. change (2 ^ 64) with 18446744073709551616.
    rewrite (Z.mod_small ((x / 10000 + 1) * 10000))
      by (clear - Hx Hdm Hmb Hq'; lia).
    split; [apply Z_mod_mult |].
    clear - Hdm Hmb Hm. lia.
Qed.

End QuotaFacts.

Section TranslationFacts.

Variable cm : dbusConnManager.
Variable host : Host.

(** What [genV1ResourcesProperties] says about the quota, once it returns
    its list. *)
Lemma genV1_quotaProperties (c : configs.Cgroup) (w w' : World)
    (props : list Property) :
  genV1ResourcesProperties host c w = (Ok props, w') ->
  quotaProperties props
  = if negb (configs.CpuQuota (configs.Resources_ c) =? 0)
       && negb (configs.CpuPeriod (configs.Resources_ c) =? 0)
    then [newProp "CPUQuotaPerSecUSec"
            (VUint64
               (if configs.CpuQuota (configs.Resources_ c) >? 0
                then roundedQuotaPerSec
                       (configs.CpuQuota (configs.Resources_ c))
                       (configs.CpuPeriod (configs.Resources_ c))
                else MaxUint64))]
    else [].
Proof.
  unfold genV1ResourcesProperties, roundedQuotaPerSec.
  set (r := configs.Resources_ c).
  set (qv := if configs.CpuQuota r >? 0 then _ else MaxUint64).
  intros H.
  destruct (negb (configs.KernelMemory r =? 0));
    [unfold bind in H; destruct (setKernelMemory host c w) as [[e|] w1]|];
    try discriminate; injection H as <- _; clearbody qv;
    destruct (negb (configs.Memory r =? 0));
    destruct (negb (configs.CpuShares r =? 0));
    destruct (negb (configs.CpuQuota r =? 0)
              && negb (configs.CpuPeriod r =? 0));
    destruct (negb (configs.BlkioWeight r =? 0));
    destruct (configs.PidsLimit r >? 0);
    reflexivity.
Qed.

(** With no kernel-memory limit the translation is pure and succeeds. *)
Lemma genV1_no_kernel_memory (c : configs.Cgroup) (w : World) :
  configs.KernelMemory (configs.Resources_ c) = 0 ->
  exists props, genV1ResourcesProperties host c w = (Ok props, w).
Proof.
  intros Hk. unfold genV1ResourcesProperties. rewrite Hk.
  cbn [Z.eqb negb]. eexists. reflexivity.
Qed.

(** An error of the translation is the error of [setKernelMemory]. *)
Lemma genV1_error (c : configs.Cgroup) (w w' : World) (err : error) :
  genV1ResourcesProperties host c w = (Err err, w') ->
  configs.KernelMemory (configs.Resources_ c) <> 0
  /\ setKernelMemory host c w = (Some err, w').
Proof.
  unfold genV1ResourcesProperties. intros H.
  destruct (configs.KernelMemory (configs.Resources_ c) =? 0) eqn:Hk;
    cbn [negb] in H; [discriminate|].
  apply Z.eqb_neq in Hk. split; [exact Hk|].
  unfold bind in H. destruct (setKernelMemory host c w) as [[e|] w1];
    [|discriminate].
  now injection H as -> ->.
Qed.

(** [addCpuQuota] appends at most a period property, then at most one
    quota property. *)
Lemma addCpuQuota_emits (properties : list Property) (quota period : Z)
    (w : World) :
  exists periodProps,
    fst (addCpuQuota cm host properties quota period w)
    = (properties ++ periodProps
       ++ (if negb (quota =? 0) || negb (period =? 0)
           then [newProp "CPUQuotaPerSecUSec"
                   (VUint64
                      (if quota >? 0
                       then roundedQuotaPerSec quota
                              (if period =? 0 then defCPUQuotaPeriod
                               else period)
                       else MaxUint64))]
           else []))%list
    /\ (periodProps = []
        \/ periodProps = [newProp "CPUQuotaPeriodUSec" (VUint64 period)]).
Proof.
  unfold addCpuQuota, roundedQuotaPerSec, bind.
  destruct (period =? 0); cbn [negb].
  - exists []. split; [|now left]. unfold ret.
    destruct (negb (quota =? 0) || false); cbn [fst app];
      now rewrite ?app_nil_r.
  - destruct (systemdVersion cm host w) as [sdVer w1].
    destruct (sdVer >=? 242).
    + exists [newProp "CPUQuotaPeriodUSec" (VUint64 period)].
      split; [|now right]. unfold ret.
      rewrite orb_true_r. cbn [fst]. now rewrite <- app_assoc.
    + exists []. split; [|now left]. unfold log, call, ret.
      rewrite orb_true_r. reflexivity.
Qed.

Lemma addCpuQuota_unset (properties : list Property) (w : World) :
  addCpuQuota cm host properties 0 0 w = (properties, w).
Proof. reflexivity. Qed.

End TranslationFacts.

(** C2.  For quota 9901 and period 10001 both translations emit
    [CPUQuotaPerSecUSec] = 990000, which is a multiple of 10000 but lies
    below the exact value 9901 * 1000000 / 10001 = 990000.99...: the
    remainder of the integer division is dropped before a multiple of 10000
    is tested for, so the value is not rounded up. *)
Theorem quota_rounding_drops_remainder
    (cm : dbusConnManager) (host : Host) (w : World) :
  quotaProperties (fst (addCpuQuota cm host [] 9901 10001 w))
  = [newProp "CPUQuotaPerSecUSec" (VUint64 990000)]
  /\ fst (genV1ResourcesProperties host (Scripted.cgroup 9901 10001) w)
     = Ok [newProp "CPUQuotaPerSecUSec" (VUint64 990000)]
  /\ 990000 * 10001 < 9901 * 1000000.
Proof.
  split; [|split; [reflexivity | lia]].
  destruct (addCpuQuota_emits cm host [] 9901 10001 w) as (pp & -> & [->| ->]);
    reflexivity.
Qed.

(** The product [quota * 1000000] also wraps around: for quota
    18446744073710 and the default period both translations emit 10000,
    far below the exact 184467440737100. *)
Lemma quota_product_wraps (cm : dbusConnManager) (host : Host) (w : World) :
  quotaProperties (fst (addCpuQuota cm host [] 18446744073710 100000 w))
  = [newProp "CPUQuotaPerSecUSec" (VUint64 10000)]
  /\ fst (genV1ResourcesProperties host
            (Scripted.cgroup 18446744073710 100000) w)
     = Ok [newProp "CPUQuotaPerSecUSec" (VUint64 10000)]
  /\ is_int64 18446744073710.
Proof.
  split; [|split; [reflexivity | unfold is_int64, MaxInt64; lia]].
  destruct (addCpuQuota_emits cm host [] 18446744073710 100000 w)
    as (pp & -> & [->| ->]); reflexivity.
Qed.

(** It is not so that [genV1ResourcesProperties] emits USEC_INFINITY whenever
    quota <= 0 and period <> 0: for quota 0 and period 100000 it emits no
    property at all. *)
Lemma genV1_zero_quota_counterexample :
  ~ (forall (host : Host) (c : configs.Cgroup) (w w' : World)
       (props : list Property),
       configs.CpuQuota (configs.Resources_ c) <= 0 ->
       configs.CpuPeriod (configs.Resources_ c) <> 0 ->
       genV1ResourcesProperties host c w = (Ok props, w') ->
       quotaProperties props
       = [newProp "CPUQuotaPerSecUSec" (VUint64 MaxUint64)]).
Proof.
  intros H.
  specialize (H (Scripted.machine [] [] "") (Scripted.cgroup 0 100000)
                Scripted.world0 Scripted.world0 []).
  cbn in H. discriminate H; [lia | discriminate | reflexivity].
Qed.

(** C3 (amended).  [addCpuQuota] emits nothing when quota = 0 and
    period = 0, and emits [CPUQuotaPerSecUSec] = USEC_INFINITY (the maximum
    unsigned 64-bit value) whenever quota <= 0 and period <> 0.
    [genV1ResourcesProperties] emits no [CPUQuotaPerSecUSec] whenever
    quota = 0, and emits USEC_INFINITY whenever quota < 0 and period <> 0;
    it returns its list whenever no kernel-memory limit is set. *)
Theorem quota_sentinel_emission
    (cm : dbusConnManager) (host : Host) (properties : list Property)
    (quota period : Z) (w : World) :
  (quota = 0 -> period = 0 ->
   addCpuQuota cm host properties quota period w = (properties, w))
  /\ (quota <= 0 -> period <> 0 ->
      exists periodProps,
        fst (addCpuQuota cm host properties quota period w)
        = (properties ++ periodProps
           ++ [newProp "CPUQuotaPerSecUSec" (VUint64 MaxUint64)])%list
        /\ quotaProperties periodProps = [])
  /\ (forall c : configs.Cgroup,
        configs.CpuQuota (configs.Resources_ c) = quota ->
        configs.CpuPeriod (configs.Resources_ c) = period ->
        (configs.KernelMemory (configs.Resources_ c) = 0 ->
         exists props, genV1ResourcesProperties host c w = (Ok props, w))
        /\ (forall props w',
              genV1ResourcesProperties host c w = (Ok props, w') ->
              (quota = 0 -> quotaProperties props = [])
              /\ (quota < 0 -> period <> 0 ->
                  quotaProperties props
                  = [newProp "CPUQuotaPerSecUSec" (VUint64 MaxUint64)]))).
Proof.
  split; [|split].
  - intros -> ->. reflexivity.
  - intros Hq Hp.
    destruct (addCpuQuota_emits cm host properties quota period w)
      as (pp & Heq & Hpp).
    exists pp. split.
    + rewrite Heq. apply Z.eqb_neq in Hp. rewrite Hp, orb_true_r.
      rewrite (gtb_nonpos quota) by lia.
      reflexivity.
    + destruct Hpp as [->| ->]; reflexivity.
  - intros c Hcq Hcp. split; [apply genV1_no_kernel_memory|].
    intros props w' Hgen. apply genV1_quotaProperties in Hgen.
    rewrite Hcq, Hcp in Hgen. rewrite Hgen. split.
    + intros ->. reflexivity.
    + intros Hq Hp.
      replace (quota =? 0) with false by (symmetry; apply Z.eqb_neq; lia).
      replace (period =? 0) with false by (symmetry; now apply Z.eqb_neq).
      rewrite (gtb_nonpos quota) by lia.
      reflexivity.
Qed.

(** The theorem for an unset quota, and for quota -1 with period 100000 on
    a daemon of version 245. *)
Lemma quota_sentinel_emission_witness :
  let cm := Scripted.daemon (Completion "done") (Completion "done") "245" in
  let host := Scripted.machine [] [] "" in
  addCpuQuota cm host [] 0 0 Scripted.world0 = ([], Scripted.world0)
  /\ (exists periodProps,
        fst (addCpuQuota cm host [] (-1) 100000 Scripted.world0)
        = ([] ++ periodProps
           ++ [newProp "CPUQuotaPerSecUSec" (VUint64 MaxUint64)])%list
        /\ quotaProperties periodProps = [])
  /\ (exists props,
        genV1ResourcesProperties host (Scripted.cgroup 0 0) Scripted.world0
        = (Ok props, Scripted.world0)
        /\ quotaProperties props = [])
  /\ (exists props,
        genV1ResourcesProperties host (Scripted.cgroup (-1) 100000)
          Scripted.world0
        = (Ok props, Scripted.world0)
        /\ quotaProperties props
           = [newProp "CPUQuotaPerSecUSec" (VUint64 MaxUint64)]).
Proof.
  intros cm host.
  destruct (quota_sentinel_emission cm host [] 0 0 Scripted.world0)
    as (Hunset & _ & Hgen0).
  destruct (quota_sentinel_emission cm host [] (-1) 100000 Scripted.world0)
    as (_ & Hadd & Hgen).
  split; [apply Hunset; reflexivity|].
  split; [apply Hadd; lia|].
  split.
  - destruct (Hgen0 (Scripted.cgroup 0 0) eq_refl eq_refl) as [Hok Hq].
    destruct (Hok eq_refl) as [props Hprops]. exists props.
    split; [exact Hprops|]. now apply (Hq props Scripted.world0 Hprops).
  - destruct (Hgen (Scripted.cgroup (-1) 100000) eq_refl eq_refl)
      as [Hok Hq].
    destruct (Hok eq_refl) as [props Hprops]. exists props.
    split; [exact Hprops|]. apply (Hq props Scripted.world0 Hprops); lia.
Defined.

(** ** Unit lifecycle *)

(** The world after one more recorded call. *)
Lemma call_run {A : Type} (ev : Event) (answer : list Event -> A) (w : World) :
  call ev answer w
  = (answer (history w),
     {| history := ev :: history w; version := version w |}).
Proof. reflexivity. Qed.

(** [startUnit] when the creation request itself fails. *)
Lemma startUnit_request_error (cm : dbusConnManager) (unitName : string)
    (properties : list Property) (w : World) (e : error) :
  StartTransientUnitContext cm (history w) unitName "replace" properties
  = RequestError e ->
  startUnit cm unitName properties w
  = (if isUnitExists (Some e) then None else Some e,
     {| history :=
          EStartTransientUnit unitName "replace" properties :: history w;
        version := version w |}).
Proof.
  intros H. unfold startUnit, bind. rewrite call_run, H.
  destruct (isUnitExists (Some e)); reflexivity.
Qed.

(** With the stop reply timing out, [stopUnit] returns an error, not nil. *)
Lemma stopUnit_timeout_counterexample :
  fst (stopUnit (Scripted.daemon (Completion "done") Timeout "245")
         "runc-g.scope" Scripted.world0)
  = Some (ErrorString
            "Timed out while waiting for systemd to remove runc-g.scope")
  /\ fst (stopUnit (Scripted.daemon (Completion "done") Timeout "245")
            "runc-g.scope" Scripted.world0)
     <> None.
Proof. split; [reflexivity | discriminate]. Qed.

(** C4 (amended).  [stopUnit] returns nil for every completion value, "done"
    or not (any other value is only logged as a warning), and when the stop
    request itself fails; when the 30-second wait times out it returns a
    "Timed out while waiting for systemd to remove <unit>" error. *)
Theorem stopUnit_result (cm : dbusConnManager) (unitName : string)
    (w : World) :
  match StopUnitContext cm (history w) unitName "replace" with
  | Completion s =>
      fst (stopUnit cm unitName w) = None
      /\ history (snd (stopUnit cm unitName w))
         = ((if String.eqb s "done" then []
             else [ELog "warn"
                     "error removing unit `%s`: got `%s`. Continuing..."
                     [AStr unitName; AStr s]])
            ++ EStopUnit unitName "replace" :: history w)%list
  | RequestError _ =>
      stopUnit cm unitName w
      = (None, {| history := EStopUnit unitName "replace" :: history w;
                  version := version w |})
  | Timeout =>
      stopUnit cm unitName w
      = (Some (ErrorString
                 ("Timed out while waiting for systemd to remove "
                  ++ unitName)),
         {| history := EStopUnit unitName "replace" :: history w;
            version := version w |})
  end.
Proof.
  unfold stopUnit, bind. rewrite call_run.
  destruct (StopUnitContext cm (history w) unitName "replace") as [e|s|];
    try reflexivity.
  destruct (String.eqb s "done"); split; reflexivity.
Qed.

(** When the creation request fails with "unit already exists", [startUnit]
    returns nil, not that error. *)
Lemma startUnit_unit_exists_counterexample :
  let err :=
    DbusError "org.freedesktop.systemd1.UnitExists"
      "Unit runc-g.scope already exists." in
  isUnitExists (Some err) = true
  /\ fst (startUnit (Scripted.daemon (RequestError err) Timeout "245")
            "runc-g.scope" [] Scripted.world0)
     = None
  /\ fst (startUnit (Scripted.daemon (RequestError err) Timeout "245")
            "runc-g.scope" [] Scripted.world0)
     <> Some err.
Proof.
  cbv zeta. split; [reflexivity | split; [reflexivity | discriminate]].
Qed.

(** C5 (amended).  When the transient-unit creation request fails with the
    "unit already exists" error, [startUnit] itself swallows it and returns
    nil, so that [Apply], which returns any error of [startUnit] unchanged,
    goes on with the joins; every other error of the creation request is
    returned by [startUnit] and by [Apply], with the path map unchanged. *)
Theorem startUnit_unit_exists (cm : dbusConnManager) (host : Host)
    (m : LegacyManager) (pid : Z) (w w1 : World) (rp : list Property)
    (e : error) :
  let unitName := getUnitName (Cgroups m) in
  let properties :=
    ((unitProperties (Cgroups m) pid ++ rp)
     ++ configs.SystemdProps (Cgroups m))%list in
  let w2 :=
    {| history :=
         EStartTransientUnit unitName "replace" properties :: history w1;
       version := version w1 |} in
  configs.Paths (Cgroups m) = None ->
  genV1ResourcesProperties host (Cgroups m) w = (Ok rp, w1) ->
  StartTransientUnitContext cm (history w1) unitName "replace" properties
  = RequestError e ->
  (isUnitExists (Some e) = true ->
   startUnit cm unitName properties w1 = (None, w2)
   /\ Apply cm host m pid w = applyJoin host m pid w2)
  /\ (isUnitExists (Some e) = false ->
      startUnit cm unitName properties w1 = (Some e, w2)
      /\ Apply cm host m pid w = (Some e, m, w2)).
Proof.
  intros unitName properties w2 Hpaths Hgen Hreply.
  pose proof (startUnit_request_error _ _ _ _ _ Hreply) as Hstart.
  fold w2 in Hstart.
  assert (HApply : Apply cm host m pid w
                   = match fst (startUnit cm unitName properties w1) with
                     | Some err => (Some err, m, w2)
                     | None => applyJoin host m pid w2
                     end).
  { unfold Apply. rewrite Hpaths. unfold bind at 1. rewrite Hgen.
    unfold bind at 1. fold unitName properties. rewrite Hstart.
    destruct (isUnitExists (Some e)); reflexivity. }
  rewrite HApply, Hstart.
  split; intros ->; split; reflexivity.
Qed.

(** The theorem on the group "g": the daemon answers the creation request
    with "unit already exists" and [Apply] succeeds; it answers with another
    error and [Apply] returns it. *)
Lemma startUnit_unit_exists_witness :
  let exists_ :=
    DbusError "org.freedesktop.systemd1.UnitExists"
      "Unit runc-g.scope already exists." in
  let refused := ErrorString "dbus: connection refused" in
  let host := Scripted.machine [] [] "" in
  let m := Scripted.manager (Scripted.cgroup 0 0) in
  fst (fst (Apply (Scripted.daemon (RequestError exists_) Timeout "245")
              host m 42 Scripted.world0))
  = None
  /\ fst (Apply (Scripted.daemon (RequestError refused) Timeout "245")
            host m 42 Scripted.world0)
     = (Some refused, m).
Proof.
  intros exists_ refused host m.
  destruct (startUnit_unit_exists
              (Scripted.daemon (RequestError exists_) Timeout "245")
              host m 42 Scripted.world0 Scripted.world0 [] exists_
              eq_refl eq_refl eq_refl) as [Hexists _].
  destruct (startUnit_unit_exists
              (Scripted.daemon (RequestError refused) Timeout "245")
              host m 42 Scripted.world0 Scripted.world0 [] refused
              eq_refl eq_refl eq_refl) as [_ Hother].
  destruct (Hexists eq_refl) as [_ ->].
  destruct (Hother eq_refl) as [_ ->].
  split; reflexivity.
Defined.

(** ** Destroy, Set and the path map *)

(** [stopUnit] always sends its stop request. *)
Lemma stopUnit_records (cm : dbusConnManager) (unitName : string) (w : World) :
  In (EStopUnit unitName "replace") (history (snd (stopUnit cm unitName w))).
Proof.
  unfold stopUnit, bind. rewrite call_run.
  destruct (StopUnitContext cm (history w) unitName "replace") as [e|s|];
    try (now left).
  destruct (String.eqb s "done"); [now left | right; now left].
Qed.

(** C10.  Outside explicit-path mode, if [stopUnit] returns an error then
    [Destroy] returns that error and leaves the manager, and so its path
    map, unchanged; the path map is cleared only when [stopUnit] succeeds. *)
Theorem Destroy_atomic (cm : dbusConnManager) (m : LegacyManager)
    (w w' : World) (e : option error) :
  configs.Paths (Cgroups m) = None ->
  stopUnit cm (getUnitName (Cgroups m)) w = (e, w') ->
  match e with
  | Some err =>
      Destroy cm m w = (Some err, m, w')
      /\ GetPaths (snd (fst (Destroy cm m w))) = GetPaths m
  | None =>
      Destroy cm m w = (None, withPaths m ∅, w')
      /\ GetPaths (snd (fst (Destroy cm m w))) = ∅
  end.
Proof.
  intros Hpaths Hstop. unfold Destroy, bind. rewrite Hpaths, Hstop.
  destruct e; split; reflexivity.
Qed.

(** The theorem with a stop that times out, and with one that completes. *)
Lemma Destroy_atomic_witness :
  let m := Scripted.manager (Scripted.cgroup 0 0) in
  (exists err w',
     Destroy (Scripted.daemon (Completion "done") Timeout "245") m
       Scripted.world0 = (Some err, m, w'))
  /\ GetPaths
       (snd (fst (Destroy (Scripted.daemon (Completion "done")
                             (Completion "done") "245") m Scripted.world0)))
     = ∅.
Proof.
  intros m. split.
  - eexists _, _.
    exact (proj1 (Destroy_atomic
                    (Scripted.daemon (Completion "done") Timeout "245") m
                    Scripted.world0 _ (Some _) eq_refl eq_refl)).
  - exact (proj2 (Destroy_atomic
                    (Scripted.daemon (Completion "done") (Completion "done")
                       "245") m
                    Scripted.world0 _ None eq_refl eq_refl)).
Defined.

(** C8.  In explicit-path mode [Destroy] and [Set] return nil and leave the
    manager and the world as they were: no call is made, to the daemon or
    elsewhere, and the path map is unchanged.  Outside explicit-path mode a
    [Destroy] that succeeds leaves the path map empty, which is what
    [GetPaths] then returns. *)
Theorem explicit_paths_noop (cm : dbusConnManager) (host : Host)
    (m : LegacyManager) (container : configs.Config) (w : World) :
  (forall paths : gmap string string,
     configs.Paths (Cgroups m) = Some paths ->
     Destroy cm m w = (None, m, w)
     /\ Set_ cm host m container w = (None, m, w))
  /\ (configs.Paths (Cgroups m) = None ->
      forall (m' : LegacyManager) (w' : World),
        Destroy cm m w = (None, m', w') ->
        Paths m' = ∅ /\ GetPaths m' = ∅
        /\ In (EStopUnit (getUnitName (Cgroups m)) "replace") (history w')).
Proof.
  split.
  - intros paths Hpaths. unfold Destroy, Set_. rewrite Hpaths.
    split; reflexivity.
  - intros Hpaths m' w' Hdestroy.
    pose proof (stopUnit_records cm (getUnitName (Cgroups m)) w) as Hrec.
    unfold Destroy, bind in Hdestroy. rewrite Hpaths in Hdestroy.
    destruct (stopUnit cm (getUnitName (Cgroups m)) w) as [[err|] w1];
      [discriminate|].
    injection Hdestroy as <- <-. repeat split; [reflexivity.. | exact Hrec].
Qed.

(** The theorem on a manager with explicit paths, and on a daemon-actuated
    one whose unit stops. *)
Lemma explicit_paths_noop_witness :
  let cm := Scripted.daemon (Completion "done") (Completion "done") "245" in
  let host := Scripted.machine [] [] "" in
  let explicit := Scripted.manager Scripted.cgroupWithPaths in
  let container := {| configs.Cgroups := Scripted.cgroup 0 0 |} in
  (Destroy cm explicit Scripted.world0 = (None, explicit, Scripted.world0)
   /\ Set_ cm host explicit container Scripted.world0
      = (None, explicit, Scripted.world0))
  /\ GetPaths
       (snd (fst (Destroy cm (Scripted.manager (Scripted.cgroup 0 0))
                    Scripted.world0)))
     = ∅.
Proof.
  intros cm host explicit container. split.
  - exact (proj1 (explicit_paths_noop cm host explicit container
                    Scripted.world0) _ eq_refl).
  - exact (proj1 (proj2 (proj2 (explicit_paths_noop cm host
                                  (Scripted.manager (Scripted.cgroup 0 0))
                                  container Scripted.world0)
                           eq_refl _ _ eq_refl))).
Defined.

(** ** Freeze *)

Lemma setFreezer_restore (c : configs.Cgroup) (state : configs.FreezerState) :
  configs.setFreezer (configs.setFreezer c state)
    (configs.Freezer (configs.Resources_ c))
  = c.
Proof. destruct c as [n p sp pa ps [] props]. reflexivity. Qed.

Lemma legacySubsystems_freezer :
  subsystemSet_Get legacySubsystems "freezer" = Ok FreezerGroup.
Proof. reflexivity. Qed.

(** C6.  [Freeze] is transactional on the configuration's freezer field: if
    the freezer controller's [Set] fails, [Freeze] returns its error and the
    configuration (so its freezer field) is what it was before the call; if
    [Set] succeeds, the field is the requested state.  When the freezer path
    cannot be resolved, [Set] is not called and nothing changes. *)
Theorem Freeze_transactional (host : Host) (m : LegacyManager)
    (state : configs.FreezerState) (w : World) :
  let requested := configs.setFreezer (Cgroups m) state in
  match getSubsystemPath host (Cgroups m) "freezer" w with
  | (Err err, w1) => Freeze host m state w = (Some err, m, w1)
  | (Ok path, w1) =>
      let w2 :=
        {| history := ESubsystemSet "freezer" path requested :: history w1;
           version := version w1 |} in
      match SubsystemSet host (history w1) "freezer" path requested with
      | Some err =>
          Freeze host m state w = (Some err, m, w2)
          /\ configs.Freezer
               (configs.Resources_
                  (Cgroups (snd (fst (Freeze host m state w)))))
             = configs.Freezer (configs.Resources_ (Cgroups m))
      | None =>
          Freeze host m state w
          = (None, {| Cgroups := requested; Paths := Paths m |}, w2)
          /\ configs.Freezer
               (configs.Resources_
                  (Cgroups (snd (fst (Freeze host m state w)))))
             = state
      end
  end.
Proof.
  intros requested. unfold Freeze, bind.
  destruct (getSubsystemPath host (Cgroups m) "freezer" w) as [[path|err] w1];
    [|reflexivity].
  rewrite legacySubsystems_freezer. cbn [subsystem_Name Cgroups Paths].
  rewrite call_run. fold requested.
  destruct (SubsystemSet host (history w1) "freezer" path requested)
    as [err|].
  - unfold requested. rewrite setFreezer_restore.
    destruct m as [c ps]. split; reflexivity.
  - split; reflexivity.
Qed.

(** On a host whose freezer cannot be set, [Freeze "FROZEN"] fails and the
    field keeps its value; on a host where it can, the field is "FROZEN". *)
Lemma Freeze_rollback_example :
  let m := Scripted.manager (Scripted.cgroup 0 0) in
  fst (Freeze (Scripted.machine [] [] "freezer") m "FROZEN" Scripted.world0)
  = (Some (ErrorString "cannot set freezer"), m)
  /\ configs.Freezer
       (configs.Resources_
          (Cgroups (snd (fst (Freeze (Scripted.machine [] [] "") m "FROZEN"
                                Scripted.world0)))))
     = "FROZEN".
Proof. split; reflexivity. Qed.

(** ** The join pass of Apply *)

Section JoinFacts.

Variable cm : dbusConnManager.
Variable host : Host.

(** The loop over two stretches of controllers is the loop over the first,
    then, unless that returned an error, the loop over the second. *)
Lemma joinCgroupsLoop_app (c : configs.Cgroup) (pid : Z)
    (pre rest : list string) :
  forall w,
    joinCgroupsLoop host c pid (pre ++ rest) w
    = match joinCgroupsLoop host c pid pre w with
      | (Some err, w1) => (Some err, w1)
      | (None, w1) => joinCgroupsLoop host c pid rest w1
      end.
Proof.
  induction pre as [|name pre IH]; intros w; [reflexivity|].
  cbn [joinCgroupsLoop app]. unfold bind.
  destruct (joinCgroup host c pid name w) as [[err|] w1]; [reflexivity|].
  apply IH.
Qed.

(** One iteration for a controller that is joined through [join]. *)
Lemma joinCgroup_default (c : configs.Cgroup) (pid : Z) (name : string)
    (w : World) :
  name <> "name=systemd" -> name <> "cpuset" ->
  joinCgroup host c pid name w
  = match join host c name pid w with
    | (Err err, w1) =>
        (if String.eqb name "devices" then Some err
         else if IsNotFound err then None else Some err, w1)
    | (Ok _, w1) => (None, w1)
    end.
Proof.
  intros Hsd Hcs. unfold joinCgroup, bind.
  apply String.eqb_neq in Hsd, Hcs. rewrite Hsd, Hcs.
  destruct (join host c name pid w) as [[path|err] w1]; [reflexivity|].
  destruct (String.eqb name "devices"); [reflexivity|].
  destruct (IsNotFound err); reflexivity.
Qed.

(** The marker controller is left to systemd: no call is made for it. *)
Lemma joinCgroup_systemd (c : configs.Cgroup) (pid : Z) (w : World) :
  joinCgroup host c pid "name=systemd" w = (None, w).
Proof. reflexivity. Qed.

(** [Apply] in daemon mode, once the unit has been started. *)
Lemma Apply_reaches_join (m : LegacyManager) (pid : Z) (w0 wa w : World)
    (rp : list Property) :
  configs.Paths (Cgroups m) = None ->
  genV1ResourcesProperties host (Cgroups m) w0 = (Ok rp, wa) ->
  startUnit cm (getUnitName (Cgroups m))
    ((unitProperties (Cgroups m) pid ++ rp)
     ++ configs.SystemdProps (Cgroups m)) wa
  = (None, w) ->
  Apply cm host m pid w0 = applyJoin host m pid w.
Proof.
  intros Hpaths Hgen Hstart. unfold Apply. rewrite Hpaths.
  unfold bind at 1. rewrite Hgen. unfold bind at 1. now rewrite Hstart.
Qed.

End JoinFacts.

(** C7.  In the join pass of [Apply], with the controllers before [name]
    joined without error: any failure to join "devices", not-found
    included, is returned by [joinCgroups] and aborts [Apply]; for every
    other controller joined through [join] (all but "name=systemd" and
    "cpuset") a failure that is not a not-found failure does the same, and a
    not-found failure is tolerated: the pass goes on with the controllers
    after it. *)
Theorem joinCgroups_failure_policy (cm : dbusConnManager) (host : Host)
    (m : LegacyManager) (pid : Z) (rp : list Property)
    (pre post : list string) (name : string) (w0 wa w w1 w2 : World)
    (err : error) :
  configs.Paths (Cgroups m) = None ->
  genV1ResourcesProperties host (Cgroups m) w0 = (Ok rp, wa) ->
  startUnit cm (getUnitName (Cgroups m))
    ((unitProperties (Cgroups m) pid ++ rp)
     ++ configs.SystemdProps (Cgroups m)) wa
  = (None, w) ->
  map subsystem_Name legacySubsystems = (pre ++ name :: post)%list ->
  joinCgroupsLoop host (Cgroups m) pid pre w = (None, w1) ->
  name <> "name=systemd" -> name <> "cpuset" ->
  join host (Cgroups m) name pid w1 = (Err err, w2) ->
  (name = "devices" \/ IsNotFound err = false ->
   joinCgroups host (Cgroups m) pid w = (Some err, w2)
   /\ Apply cm host m pid w0 = (Some err, m, w2))
  /\ (name <> "devices" -> IsNotFound err = true ->
      joinCgroups host (Cgroups m) pid w
      = joinCgroupsLoop host (Cgroups m) pid post w2).
Proof.
  intros Hpaths Hgen Hstart Hlist Hpre Hsd Hcs Hjoin.
  assert (Hloop : joinCgroups host (Cgroups m) pid w
                  = match (if String.eqb name "devices" then Some err
                           else if IsNotFound err then None else Some err)
                    with
                    | Some e => (Some e, w2)
                    | None => joinCgroupsLoop host (Cgroups m) pid post w2
                    end).
  { unfold joinCgroups. rewrite Hlist, joinCgroupsLoop_app, Hpre.
    cbn [joinCgroupsLoop]. unfold bind.
    rewrite (joinCgroup_default host _ _ _ _ Hsd Hcs), Hjoin.
    destruct (String.eqb name "devices"); [reflexivity|].
    destruct (IsNotFound err); reflexivity. }
  split.
  - intros Hfatal.
    assert (Hret : joinCgroups host (Cgroups m) pid w = (Some err, w2)).
    { rewrite Hloop. destruct Hfatal as [-> | ->]; [reflexivity|].
      destruct (String.eqb name "devices"); reflexivity. }
    split; [exact Hret|].
    rewrite (Apply_reaches_join cm host m pid w0 wa w rp Hpaths Hgen Hstart).
    unfold applyJoin, bind. now rewrite Hret.
  - intros Hdev Hnf. rewrite Hloop.
    apply String.eqb_neq in Hdev. now rewrite Hdev, Hnf.
Qed.

(** The theorem on three hosts: one without the "devices" hierarchy ([Apply]
    fails with the not-found error), one whose "memory" hierarchy cannot be
    read ([Apply] fails with that error), and one without the "hugetlb"
    hierarchy (the pass goes on and returns nil). *)
Lemma joinCgroups_failure_policy_witness :
  let cm := Scripted.daemon (Completion "done") (Completion "done") "245" in
  let m := Scripted.manager (Scripted.cgroup 0 0) in
  fst (Apply cm (Scripted.machine ["devices"] [] "") m 42 Scripted.world0)
  = (Some (NotFoundError "devices"), m)
  /\ fst (Apply cm (Scripted.machine [] ["memory"] "") m 42 Scripted.world0)
     = (Some (ErrorString "cannot read mountinfo for memory"), m)
  /\ fst (joinCgroups (Scripted.machine ["hugetlb"] [] "") (Cgroups m) 42
            (snd (startUnit cm "runc-g.scope"
                    ((unitProperties (Cgroups m) 42 ++ [])
                     ++ configs.SystemdProps (Cgroups m))
                    Scripted.world0)))
     = None.
Proof.
  intros cm m.
  assert (Hgen : forall host,
             genV1ResourcesProperties host (Cgroups m) Scripted.world0
             = (Ok [], Scripted.world0)) by reflexivity.
  pose (props := ((unitProperties (Cgroups m) 42 ++ [])
                  ++ configs.SystemdProps (Cgroups m))%list).
  pose (w := snd (startUnit cm "runc-g.scope" props Scripted.world0)).
  assert (Hstart : startUnit cm (getUnitName (Cgroups m)) props
                     Scripted.world0 = (None, w))
    by (vm_compute; reflexivity).
  split; [|split].
  - set (host := Scripted.machine ["devices"] [] "").
    pose (w1 := snd (joinCgroupsLoop host (Cgroups m) 42 ["cpuset"] w)).
    pose (w2 := snd (join host (Cgroups m) "devices" 42 w1)).
    destruct (joinCgroups_failure_policy cm host m 42 []
                ["cpuset"]
                ["memory"; "cpu"; "cpuacct"; "pids"; "blkio"; "hugetlb";
                 "perf_event"; "freezer"; "net_prio"; "net_cls";
                 "name=systemd"]
                "devices" Scripted.world0 Scripted.world0 w w1 w2
                (NotFoundError "devices"))
      as [Hfatal _];
      [reflexivity | apply Hgen | exact Hstart | reflexivity
      | vm_compute; reflexivity | discriminate | discriminate
      | vm_compute; reflexivity |].
    destruct (Hfatal (or_introl eq_refl)) as [_ ->]. reflexivity.
  - set (host := Scripted.machine [] ["memory"] "").
    pose (w1 := snd (joinCgroupsLoop host (Cgroups m) 42
                       ["cpuset"; "devices"] w)).
    pose (w2 := snd (join host (Cgroups m) "memory" 42 w1)).
    destruct (joinCgroups_failure_policy cm host m 42 []
                ["cpuset"; "devices"]
                ["cpu"; "cpuacct"; "pids"; "blkio"; "hugetlb";
                 "perf_event"; "freezer"; "net_prio"; "net_cls";
                 "name=systemd"]
                "memory" Scripted.world0 Scripted.world0 w w1 w2
                (ErrorString "cannot read mountinfo for memory"))
      as [Hfatal _];
      [reflexivity | apply Hgen | exact Hstart | reflexivity
      | vm_compute; reflexivity | discriminate | discriminate
      | vm_compute; reflexivity |].
    destruct (Hfatal (or_intror eq_refl)) as [_ ->]. reflexivity.
  - set (host := Scripted.machine ["hugetlb"] [] "").
    pose (w1 := snd (joinCgroupsLoop host (Cgroups m) 42
                       ["cpuset"; "devices"; "memory"; "cpu"; "cpuacct";
                        "pids"; "blkio"] w)).
    pose (w2 := snd (join host (Cgroups m) "hugetlb" 42 w1)).
    destruct (joinCgroups_failure_policy cm host m 42 []
                ["cpuset"; "devices"; "memory"; "cpu"; "cpuacct"; "pids";
                 "blkio"]
                ["perf_event"; "freezer"; "net_prio"; "net_cls";
                 "name=systemd"]
                "hugetlb" Scripted.world0 Scripted.world0 w w1 w2
                (NotFoundError "hugetlb"))
      as [_ Htolerated];
      [reflexivity | apply Hgen | exact Hstart | reflexivity
      | vm_compute; reflexivity | discriminate | discriminate
      | vm_compute; reflexivity |].
    fold props w.
    rewrite (Htolerated ltac:(discriminate) eq_refl).
    vm_compute. reflexivity.
Defined.

(** * Further properties of the driver *)

(** ** The daemon's version *)

Section VersionFacts.

Lemma firstDigits_skip (pre s : string) :
  noDigits pre -> firstDigits (pre ++ s) = firstDigits s.
Proof.
  unfold noDigits. induction pre as [|c pre IH]; intros H; [reflexivity|].
  cbn [list_ascii_of_string] in H. inversion H as [|? ? Hc Hpre]; subst.
  cbn [String.append firstDigits]. rewrite Hc. now apply IH.
Qed.

Lemma takeDigits_run (d rest : string) :
  allDigits d ->
  takeDigits rest = "" ->
  takeDigits (d ++ rest) = d.
Proof.
  unfold allDigits. induction d as [|c d IH]; intros H Hrest; [exact Hrest|].
  cbn [list_ascii_of_string] in H. inversion H as [|? ? Hc Hd]; subst.
  cbn [String.append takeDigits]. rewrite Hc. now rewrite IH.
Qed.

Lemma firstDigits_none (s : string) : noDigits s -> firstDigits s = None.
Proof.
  intros H. rewrite <- (append_empty_r s). now rewrite firstDigits_skip.
Qed.

Lemma takeDigits_allDigits (s : string) : allDigits (takeDigits s).
Proof.
  unfold allDigits. induction s as [|c s IH]; [constructor|].
  cbn [takeDigits]. destruct (isDigit c) eqn:Hc; [|constructor].
  cbn [list_ascii_of_string]. now constructor.
Qed.

Lemma firstDigits_allDigits (s d : string) :
  firstDigits s = Some d -> allDigits d.
Proof.
  revert d. induction s as [|c s IH]; intros d; [discriminate|].
  cbn [firstDigits takeDigits]. destruct (isDigit c) eqn:Hc; [|apply IH].
  intros [= <-]. unfold allDigits. cbn [list_ascii_of_string].
  constructor; [exact Hc | apply takeDigits_allDigits].
Qed.

Lemma digitsValue_nonneg (s : string) :
  allDigits s -> forall acc, 0 <= acc -> 0 <= digitsValue acc s.
Proof.
  unfold allDigits. induction s as [|c s IH]; intros H acc Hacc; [exact Hacc|].
  cbn [list_ascii_of_string] in H. inversion H as [|? ? Hc Hs]; subst.
  cbn [digitsValue]. apply (IH Hs).
  unfold isDigit in Hc. apply andb_prop in Hc as [Hlo _].
  apply Nat.leb_le in Hlo. lia.
Qed.

End VersionFacts.

(** X1.  A version string made of a part without digits, then a run of
    digits whose value fits an [int], then nothing or a part starting with
    a byte that is not a digit, parses to the value of that run. *)
Theorem systemdVersionAtoi_first_run (pre digits rest : string) :
  noDigits pre ->
  allDigits digits -> digits <> "" ->
  takeDigits rest = "" ->
  digitsValue 0 digits <= MaxInt64 ->
  systemdVersionAtoi (pre ++ digits ++ rest) = (digitsValue 0 digits, None).
Proof.
  intros Hpre Hd Hne Hrest Hmax. unfold systemdVersionAtoi.
  rewrite (firstDigits_skip _ _ Hpre).
  assert (Hfirst : firstDigits (digits ++ rest) = Some digits).
  { destruct digits as [|c d]; [congruence|].
    pose proof Hd as Hd'. unfold allDigits in Hd'.
    cbn [list_ascii_of_string] in Hd'. inversion Hd' as [|? ? Hc _]; subst.
    cbn [String.append firstDigits]. rewrite Hc.
    change (String c (d ++ rest)) with (String c d ++ rest).
    now rewrite takeDigits_run. }
  rewrite Hfirst. unfold Atoi.
  apply Z.leb_le in Hmax. now rewrite Hmax.
Qed.

(** The version strings named in the source all give 245. *)
Lemma systemdVersionAtoi_first_run_witness :
  systemdVersionAtoi ("v" ++ "245" ++ ".4-1.fc32") = (245, None)
  /\ systemdVersionAtoi ("" ++ "245" ++ "") = (245, None)
  /\ systemdVersionAtoi ("v" ++ "245" ++ "-1.fc32") = (245, None)
  /\ systemdVersionAtoi ("" ++ "245" ++ "-1.fc32") = (245, None).
Proof.
  split; [|split; [|split]].
  - apply (systemdVersionAtoi_first_run "v" "245" ".4-1.fc32");
      [repeat constructor | repeat constructor | discriminate | reflexivity
      | vm_compute; discriminate].
  - apply (systemdVersionAtoi_first_run "" "245" "");
      [repeat constructor | repeat constructor | discriminate | reflexivity
      | vm_compute; discriminate].
  - apply (systemdVersionAtoi_first_run "v" "245" "-1.fc32");
      [repeat constructor | repeat constructor | discriminate | reflexivity
      | vm_compute; discriminate].
  - apply (systemdVersionAtoi_first_run "" "245" "-1.fc32");
      [repeat constructor | repeat constructor | discriminate | reflexivity
      | vm_compute; discriminate].
Defined.

(** X2.  [systemdVersionAtoi] fails on a string without digits, with
    result 0; whenever it fails its result is 0 or -1, and whenever it
    succeeds its result is between 0 and the largest [int]. *)
Theorem systemdVersionAtoi_range (verStr : string) :
  (noDigits verStr ->
   systemdVersionAtoi verStr
   = (0, Some (ErrorString ("can't parse version " ++ verStr
                            ++ ": incorrect number of matches []"))))
  /\ match snd (systemdVersionAtoi verStr) with
     | None => 0 <= fst (systemdVersionAtoi verStr) <= MaxInt64
     | Some _ =>
         fst (systemdVersionAtoi verStr) = 0
         \/ fst (systemdVersionAtoi verStr) = -1
     end.
Proof.
  split.
  - intros H. unfold systemdVersionAtoi. now rewrite (firstDigits_none _ H).
  - unfold systemdVersionAtoi.
    destruct (firstDigits verStr) as [d|] eqn:Hd; [|now left].
    unfold Atoi. destruct (digitsValue 0 d <=? MaxInt64) eqn:Hmax;
      cbn [fst snd]; [|now right].
    apply Z.leb_le in Hmax. split; [|exact Hmax].
    apply digitsValue_nonneg; [|lia]. exact (firstDigits_allDigits _ _ Hd).
Qed.

(** A version string without any digit. *)
Lemma systemdVersionAtoi_range_witness :
  systemdVersionAtoi "unknown"
  = (0, Some (ErrorString
                "can't parse version unknown: incorrect number of matches []")).
Proof.
  apply (proj1 (systemdVersionAtoi_range "unknown")).
  repeat constructor.
Defined.

(** X3.  The version is computed once: after any call of [systemdVersion],
    every later call, on whatever connection, returns the same version and
    makes no call. *)
Theorem systemdVersion_cached (cm cm' : dbusConnManager) (host host' : Host)
    (w : World) :
  systemdVersion cm' host' (snd (systemdVersion cm host w))
  = (fst (systemdVersion cm host w), snd (systemdVersion cm host w)).
Proof.
  unfold systemdVersion.
  destruct (version w) as [v|] eqn:Hv.
  - cbn [fst snd]. now rewrite Hv.
  - destruct (systemdVersionOnce cm host w) as [v w1]. reflexivity.
Qed.

(** ** More on the CPU quota translation *)

(** The unknown version: when the version was not computed yet and the
    daemon does not answer, [systemdVersion] is -1. *)
Lemma systemdVersion_unknown (cm : dbusConnManager) (host : Host) (w : World)
    (e : error) :
  version w = None ->
  GetManagerProperty cm (history w) "Version" = Err e ->
  fst (systemdVersion cm host w) = -1.
Proof.
  intros Hv Hq. unfold systemdVersion, systemdVersionOnce, getManagerProperty.
  rewrite Hv. unfold bind. rewrite call_run, Hq. reflexivity.
Qed.

(** X4.  For quota > 0 and period > 0 whose product quota * 1000000 is below
    2^64, both translations emit one [CPUQuotaPerSecUSec] property, with the
    same value: a multiple of 10000 that is at least the floor of
    quota * 1000000 / period and less than 10000 above it; when the period
    divides quota * 1000000 the value is at least the exact quotient. *)
Theorem quota_translation_bounds (cm : dbusConnManager) (host : Host)
    (c : configs.Cgroup) (w : World) (quota period : Z) :
  0 < quota -> quota * 1000000 < 2 ^ 64 -> 0 < period ->
  exists v : Z,
    quotaProperties (fst (addCpuQuota cm host [] quota period w))
    = [newProp "CPUQuotaPerSecUSec" (VUint64 v)]
    /\ (configs.CpuQuota (configs.Resources_ c) = quota ->
        configs.CpuPeriod (configs.Resources_ c) = period ->
        forall props w',
          genV1ResourcesProperties host c w = (Ok props, w') ->
          quotaProperties props = [newProp "CPUQuotaPerSecUSec" (VUint64 v)])
    /\ v mod 10000 = 0
    /\ quota * 1000000 / period <= v < quota * 1000000 / period + 10000
    /\ ((quota * 1000000) mod period = 0 -> quota * 1000000 <= v * period).
Proof.
  intros Hq Hov Hp. exists (roundedQuotaPerSec quota period).
  destruct (roundedQuotaPerSec_no_overflow quota period Hq Hov Hp)
    as [Hmul Hbounds].
  assert (Hqz : (quota =? 0) = false) by (apply Z.eqb_neq; lia).
  assert (Hpz : (period =? 0) = false) by (apply Z.eqb_neq; lia).
  assert (Hqp : (quota >? 0) = true) by (apply Z.gtb_lt; lia).
  split; [|split; [|split; [exact Hmul | split; [exact Hbounds|]]]].
  - destruct (addCpuQuota_emits cm host [] quota period w)
      as (pp & -> & Hpp).
    rewrite Hqz, Hpz, Hqp. destruct Hpp as [->| ->]; reflexivity.
  - intros Hcq Hcp props w' Hgen. apply genV1_quotaProperties in Hgen.
    now rewrite Hgen, Hcq, Hcp, Hqz, Hpz, Hqp.
  - intros Hdiv.
    pose proof (Z.div_mod (quota * 1000000) period ltac:(lia)) as Hdm.
    rewrite Hdiv, Z.add_0_r in Hdm.
    assert (period * (quota * 1000000 / period)
            <= period * roundedQuotaPerSec quota period)
      by (apply Z.mul_le_mono_nonneg_l; lia).
    lia.
Qed.

(** Half a CPU: quota 50000 in a period of 100000 gives 500000. *)
Lemma quota_translation_bounds_witness :
  exists v : Z,
    quotaProperties
      (fst (addCpuQuota
              (Scripted.daemon (Completion "done") (Completion "done") "245")
              (Scripted.machine [] [] "") [] 50000 100000 Scripted.world0))
    = [newProp "CPUQuotaPerSecUSec" (VUint64 v)]
    /\ v mod 10000 = 0
    /\ 50000 * 1000000 <= v * 100000.
Proof.
  destruct (quota_translation_bounds
              (Scripted.daemon (Completion "done") (Completion "done") "245")
              (Scripted.machine [] [] "") (Scripted.cgroup 50000 100000)
              Scripted.world0 50000 100000)
    as (v & Hadd & _ & Hmul & _ & Hexact); [lia | reflexivity | lia |].
  exists v. split; [exact Hadd | split; [exact Hmul|]].
  apply Hexact. reflexivity.
Defined.

(** X5.  With a quota but no period, [addCpuQuota] assumes the default
    period of 100000: it makes no call, emits no period property and emits
    the quota translated for that period, which (the product not
    overflowing) is the least multiple of 10000 at or above 10 * quota.
    [genV1ResourcesProperties] emits no quota property at all then. *)
Theorem quota_without_period (cm : dbusConnManager) (host : Host)
    (properties : list Property) (c : configs.Cgroup) (w : World)
    (quota : Z) :
  0 < quota -> quota * 1000000 < 2 ^ 64 ->
  (exists v : Z,
     addCpuQuota cm host properties quota 0 w
     = ((properties ++ [newProp "CPUQuotaPerSecUSec" (VUint64 v)])%list, w)
     /\ v mod 10000 = 0 /\ 10 * quota <= v < 10 * quota + 10000)
  /\ (configs.CpuQuota (configs.Resources_ c) = quota ->
      configs.CpuPeriod (configs.Resources_ c) = 0 ->
      forall props w',
        genV1ResourcesProperties host c w = (Ok props, w') ->
        quotaProperties props = []).
Proof.
  intros Hq Hov. split.
  - exists (roundedQuotaPerSec quota defCPUQuotaPeriod).
    destruct (roundedQuotaPerSec_no_overflow quota defCPUQuotaPeriod Hq Hov
                eq_refl) as [Hmul Hbounds].
    split; [|split; [exact Hmul|]].
    + unfold addCpuQuota, roundedQuotaPerSec, bind, ret.
      cbn [Z.eqb negb orb].
      replace (quota =? 0) with false by (symmetry; apply Z.eqb_neq; lia).
      replace (quota >? 0) with true by (symmetry; apply Z.gtb_lt; lia).
      reflexivity.
    + unfold defCPUQuotaPeriod in Hbounds.
      replace (quota * 1000000 / 100000) with (10 * quota) in Hbounds;
        [exact Hbounds|].
      replace (quota * 1000000) with (10 * quota * 100000) by lia.
      now rewrite Z.div_mul.
  - intros Hcq Hcp props w' Hgen. apply genV1_quotaProperties in Hgen.
    rewrite Hgen, Hcp. cbn [Z.eqb negb]. now rewrite andb_false_r.
Qed.

(** Quota 25001 without a period: 250010 is rounded up to 260000. *)
Lemma quota_without_period_witness :
  exists v : Z,
    addCpuQuota
      (Scripted.daemon (Completion "done") (Completion "done") "245")
      (Scripted.machine [] [] "") [] 25001 0 Scripted.world0
    = ([newProp "CPUQuotaPerSecUSec" (VUint64 v)], Scripted.world0)
    /\ v mod 10000 = 0 /\ 10 * 25001 <= v < 10 * 25001 + 10000.
Proof.
  destruct (quota_without_period
              (Scripted.daemon (Completion "done") (Completion "done") "245")
              (Scripted.machine [] [] "") [] (Scripted.cgroup 25001 0)
              Scripted.world0 25001)
    as [Hadd _]; [lia | reflexivity |].
  exact Hadd.
Defined.

(** X6.  With a period, [addCpuQuota] emits [CPUQuotaPeriodUSec] exactly when
    the daemon's version is at least 242, before the quota property; a
    daemon whose version cannot be read counts as too old. *)
Theorem addCpuQuota_period_gate (cm : dbusConnManager) (host : Host)
    (properties : list Property) (quota period : Z) (w : World) :
  period <> 0 ->
  (exists quotaProp,
     PropName quotaProp = "CPUQuotaPerSecUSec"
     /\ fst (addCpuQuota cm host properties quota period w)
        = (properties
           ++ (if fst (systemdVersion cm host w) >=? 242
               then [newProp "CPUQuotaPeriodUSec" (VUint64 period)]
               else [])
           ++ [quotaProp])%list)
  /\ (forall e,
        version w = None ->
        GetManagerProperty cm (history w) "Version" = Err e ->
        exists quotaProp,
          fst (addCpuQuota cm host properties quota period w)
          = (properties ++ [quotaProp])%list).
Proof.
  intros Hp. apply Z.eqb_neq in Hp.
  assert (Hgate : exists quotaProp,
             PropName quotaProp = "CPUQuotaPerSecUSec"
             /\ fst (addCpuQuota cm host properties quota period w)
                = (properties
                   ++ (if fst (systemdVersion cm host w) >=? 242
                       then [newProp "CPUQuotaPeriodUSec" (VUint64 period)]
                       else [])
                   ++ [quotaProp])%list).
  { unfold addCpuQuota, bind. rewrite Hp. cbn [negb].
    destruct (systemdVersion cm host w) as [sdVer w1]. cbn [fst].
    rewrite orb_true_r.
    destruct (sdVer >=? 242); eexists;
      (split;
       [|unfold ret, log, call; cbn [fst]; rewrite <- ?app_assoc;
         reflexivity]);
      reflexivity. }
  split; [exact Hgate|].
  intros e Hv Hq. destruct Hgate as (quotaProp & _ & Heq).
  exists quotaProp. rewrite Heq, (systemdVersion_unknown cm host w e Hv Hq).
  reflexivity.
Qed.

(** Version 245 emits the period, version 241 does not. *)
Lemma addCpuQuota_period_gate_witness :
  (exists quotaProp,
     PropName quotaProp = "CPUQuotaPerSecUSec"
     /\ fst (addCpuQuota
              (Scripted.daemon (Completion "done") (Completion "done") "245")
              (Scripted.machine [] [] "") [] (-1) 100000 Scripted.world0)
        = [newProp "CPUQuotaPeriodUSec" (VUint64 100000); quotaProp])
  /\ (exists quotaProp,
        PropName quotaProp = "CPUQuotaPerSecUSec"
        /\ fst (addCpuQuota
                 (Scripted.daemon (Completion "done") (Completion "done")
                    "v241")
                 (Scripted.machine [] [] "") [] (-1) 100000 Scripted.world0)
           = [quotaProp])
  /\ (exists quotaProp,
        fst (addCpuQuota (unreachableDaemon (ErrorString "no reply"))
               (Scripted.machine [] [] "") [] (-1) 100000 Scripted.world0)
        = [quotaProp]).
Proof.
  split; [|split]; cycle 2.
  - destruct (addCpuQuota_period_gate
                (unreachableDaemon (ErrorString "no reply"))
                (Scripted.machine [] [] "") [] (-1) 100000 Scripted.world0)
      as [_ Hunknown]; [discriminate|].
    exact (Hunknown (ErrorString "no reply") eq_refl eq_refl).
  - destruct (addCpuQuota_period_gate
                (Scripted.daemon (Completion "done") (Completion "done") "245")
                (Scripted.machine [] [] "") [] (-1) 100000 Scripted.world0)
      as [(qp & Hname & Heq) _]; [discriminate|].
    exists qp. split; [exact Hname | exact Heq].
  - destruct (addCpuQuota_period_gate
                (Scripted.daemon (Completion "done") (Completion "done") "v241")
                (Scripted.machine [] [] "") [] (-1) 100000 Scripted.world0)
      as [(qp & Hname & Heq) _]; [discriminate|].
    exists qp. split; [exact Hname | exact Heq].
Defined.

(** ** The resource properties of the legacy manager *)

(** X7.  The list [genV1ResourcesProperties] returns never names a property
    twice, and names only the six resource properties; a memory limit of -1
    is sent as the largest unsigned value; without a kernel-memory limit the
    function makes no call. *)
Theorem genV1_property_names (host : Host) (c : configs.Cgroup) (w w' : World)
    (props : list Property) :
  genV1ResourcesProperties host c w = (Ok props, w') ->
  NoDup (map PropName props)
  /\ Forall (fun p =>
               In (PropName p)
                 ["MemoryLimit"; "CPUShares"; "CPUQuotaPerSecUSec";
                  "BlockIOWeight"; "TasksAccounting"; "TasksMax"]) props
  /\ (configs.Memory (configs.Resources_ c) = -1 ->
      In (newProp "MemoryLimit" (VUint64 MaxUint64)) props)
  /\ (configs.KernelMemory (configs.Resources_ c) = 0 -> w' = w).
Proof.
  unfold genV1ResourcesProperties.
  set (r := configs.Resources_ c).
  set (qv := if configs.CpuQuota r >? 0 then _ else MaxUint64).
  intros H. split; [|split; [|split]].
  - destruct (negb (configs.KernelMemory r =? 0));
      [unfold bind in H; destruct (setKernelMemory host c w) as [[e|] w1]|];
      try discriminate; injection H as <- _; clearbody qv;
      destruct (negb (configs.Memory r =? 0));
      destruct (negb (configs.CpuShares r =? 0));
      destruct (negb (configs.CpuQuota r =? 0)
                && negb (configs.CpuPeriod r =? 0));
      destruct (negb (configs.BlkioWeight r =? 0));
      destruct (configs.PidsLimit r >? 0);
      cbn [app map PropName newProp];
      apply (bool_decide_unpack _); vm_compute; exact I.
  - destruct (negb (configs.KernelMemory r =? 0));
      [unfold bind in H; destruct (setKernelMemory host c w) as [[e|] w1]|];
      try discriminate; injection H as <- _; clearbody qv;
      destruct (negb (configs.Memory r =? 0));
      destruct (negb (configs.CpuShares r =? 0));
      destruct (negb (configs.CpuQuota r =? 0)
                && negb (configs.CpuPeriod r =? 0));
      destruct (negb (configs.BlkioWeight r =? 0));
      destruct (configs.PidsLimit r >? 0);
      cbn [app];
      repeat (constructor; [cbn [In PropName newProp]; auto 10|]);
      constructor.
  - intros Hm. rewrite Hm in H. cbn [Z.eqb negb] in H.
    change (to_uint64 (-1)) with MaxUint64 in H.
    destruct (negb (configs.KernelMemory r =? 0));
      [unfold bind in H; destruct (setKernelMemory host c w) as [[e|] w1]|];
      try discriminate; injection H as <- _; clearbody qv;
      destruct (negb (configs.CpuShares r =? 0));
      destruct (negb (configs.CpuQuota r =? 0)
                && negb (configs.CpuPeriod r =? 0));
      destruct (negb (configs.BlkioWeight r =? 0));
      destruct (configs.PidsLimit r >? 0);
      cbn [app In]; now left.
  - intros Hk. rewrite Hk in H. cbn [Z.eqb negb] in H.
    now injection H as _ <-.
Qed.

(** The theorem on a group with memory limit -1 and no kernel memory. *)
Lemma genV1_property_names_witness :
  exists props,
    genV1ResourcesProperties (Scripted.machine [] [] "")
      (cgroupWithMemory (-1) 0) Scripted.world0
    = (Ok props, Scripted.world0)
    /\ NoDup (map PropName props)
    /\ In (newProp "MemoryLimit" (VUint64 MaxUint64)) props.
Proof.
  eexists. split; [reflexivity|].
  destruct (genV1_property_names (Scripted.machine [] [] "")
              (cgroupWithMemory (-1) 0) Scripted.world0 Scripted.world0 _
              eq_refl) as (Hnodup & _ & Hmem & _).
  split; [exact Hnodup | exact (Hmem eq_refl)].
Defined.

(** ** Kernel memory and the direct joins *)



(** X9.  [join] attaches the process to the directory it has just made: when
    it returns a path, its last two calls are [MkdirAll] on that path and
    then [WriteCgroupProc] of the pid on it.  When the path cannot be
    resolved, or the directory cannot be made, nothing is written. *)
Theorem join_creates_then_attaches (host : Host) (c : configs.Cgroup)
    (subsystem : string) (pid : Z) (w : World) :
  (forall path w',
     join host c subsystem pid w = (Ok path, w') ->
     exists w1,
       getSubsystemPath host c subsystem w = (Ok path, w1)
       /\ history w'
          = EWriteCgroupProc path pid :: EMkdirAll path 493 :: history w1)
  /\ (forall err w1,
        getSubsystemPath host c subsystem w = (Err err, w1) ->
        join host c subsystem pid w = (Err err, w1))
  /\ (forall path w1 err,
        getSubsystemPath host c subsystem w = (Ok path, w1) ->
        MkdirAll host (history w1) path 493 = Some err ->
        join host c subsystem pid w
        = (Err err, {| history := EMkdirAll path 493 :: history w1;
                       version := version w1 |})).
Proof.
  unfold join, bind. split; [|split].
  - intros path w' H.
    destruct (getSubsystemPath host c subsystem w) as [[p|err] w1];
      [|discriminate].
    rewrite call_run in H.
    destruct (MkdirAll host (history w1) p 493); [discriminate|].
    rewrite call_run in H. cbn [history] in H.
    destruct (WriteCgroupProc host (EMkdirAll p 493 :: history w1) p pid);
      [discriminate|].
    injection H as <- <-. exists w1. split; reflexivity.
  - intros err w1 ->. reflexivity.
  - intros path w1 err -> Hmk. now rewrite call_run, Hmk.
Qed.

(** Joining "memory" on a host with the hierarchy, and on one without. *)
Lemma join_creates_then_attaches_witness :
  let c := Scripted.cgroup 0 0 in
  (exists path w1,
     fst (join (Scripted.machine [] [] "") c "memory" 42 Scripted.world0)
     = Ok path
     /\ history (snd (join (Scripted.machine [] [] "") c "memory" 42
                        Scripted.world0))
        = EWriteCgroupProc path 42 :: EMkdirAll path 493 :: history w1)
  /\ join (Scripted.machine ["memory"] [] "") c "memory" 42 Scripted.world0
     = (Err (NotFoundError "memory"),
        {| history := [EFindCgroupMountpoint "" "memory"];
           version := None |}).
Proof.
  intros c. split.
  - destruct (join_creates_then_attaches (Scripted.machine [] [] "") c
                "memory" 42 Scripted.world0) as (Hok & _ & _).
    destruct (Hok _ _ eq_refl) as (w1 & _ & Hhist).
    eexists _, w1. split; [reflexivity | exact Hhist].
  - destruct (join_creates_then_attaches (Scripted.machine ["memory"] [] "")
                c "memory" 42 Scripted.world0) as (_ & Herr & _).
    exact (Herr _ _ eq_refl).
Defined.

(** X10.  The join pass over controllers other than "devices" and "cpuset"
    never returns a not-found error: a missing hierarchy of an optional
    controller cannot fail [Apply]. *)
Theorem joinCgroupsLoop_optional (host : Host) (c : configs.Cgroup) (pid : Z)
    (names : list string) :
  ~ In "devices" names -> ~ In "cpuset" names ->
  forall w w' err,
    joinCgroupsLoop host c pid names w = (Some err, w') ->
    IsNotFound err = false.
Proof.
  induction names as [|name names IH]; intros Hdev Hcs w w' err H;
    [discriminate|].
  cbn [joinCgroupsLoop] in H. unfold bind in H.
  assert (Hstep : forall e w1,
             joinCgroup host c pid name w = (Some e, w1) ->
             IsNotFound e = false).
  { intros e w1 Hj.
    destruct (String.eqb_spec name "name=systemd") as [->|Hsd];
      [discriminate|].
    rewrite (joinCgroup_default host c pid name w Hsd) in Hj
      by (intros ->; apply Hcs; now left).
    destruct (join host c name pid w) as [[p|e'] w2]; [discriminate|].
    replace (String.eqb name "devices") with false in Hj
      by (symmetry; apply String.eqb_neq; intros ->; apply Hdev; now left).
    destruct (IsNotFound e') eqn:Hnf; [discriminate|].
    now injection Hj as <- _. }
  destruct (joinCgroup host c pid name w) as [[e|] w1].
  - injection H as <- <-. exact (Hstep _ _ eq_refl).
  - apply (IH (fun Hin => Hdev (or_intror Hin))
              (fun Hin => Hcs (or_intror Hin)) w1 w' err H).
Qed.

(** With the "memory" hierarchy unreadable the pass over the optional
    controllers fails, and not with a not-found error. *)
Lemma joinCgroupsLoop_optional_witness :
  exists err w',
    joinCgroupsLoop (Scripted.machine ["hugetlb"] ["memory"] "")
      (Scripted.cgroup 0 0) 42 ["hugetlb"; "memory"; "cpu"] Scripted.world0
    = (Some err, w')
    /\ IsNotFound err = false.
Proof.
  assert (H : joinCgroupsLoop (Scripted.machine ["hugetlb"] ["memory"] "")
                (Scripted.cgroup 0 0) 42 ["hugetlb"; "memory"; "cpu"]
                Scripted.world0
              = (Some (ErrorString "cannot read mountinfo for memory"),
                 snd (joinCgroupsLoop
                        (Scripted.machine ["hugetlb"] ["memory"] "")
                        (Scripted.cgroup 0 0) 42 ["hugetlb"; "memory"; "cpu"]
                        Scripted.world0)))
    by (vm_compute; reflexivity).
  eexists _, _. split; [exact H|].
  refine (joinCgroupsLoop_optional
            (Scripted.machine ["hugetlb"] ["memory"] "")
            (Scripted.cgroup 0 0) 42 ["hugetlb"; "memory"; "cpu"]
            _ _ Scripted.world0 _ _ H);
    intros [Hin|[Hin|[Hin|[]]]]; discriminate.
Defined.

(** ** Apply and the path map *)

(** X11.  In daemon mode an [Apply] that fails leaves the manager as it was.
    In explicit-path mode the path map is replaced before the process is
    attached, so the new map stays even when [EnterPid] fails.  [Apply]
    never changes the configuration. *)
Theorem Apply_failure_keeps_manager (cm : dbusConnManager) (host : Host)
    (m : LegacyManager) (pid : Z) (w : World) :
  (configs.Paths (Cgroups m) = None ->
   forall err m' w',
     Apply cm host m pid w = (Some err, m', w') -> m' = m)
  /\ (forall cPaths paths w1,
        configs.Paths (Cgroups m) = Some cPaths ->
        applyExplicitPaths host (Cgroups m) (map_to_list cPaths) ∅ w
        = (Ok paths, w1) ->
        Apply cm host m pid w
        = (EnterPid host (history w1) paths pid, withPaths m paths,
           {| history := EEnterPid paths pid :: history w1;
              version := version w1 |}))
  /\ Cgroups (snd (fst (Apply cm host m pid w))) = Cgroups m.
Proof.
  split; [|split].
  - intros Hpaths err m' w' H. unfold Apply in H. rewrite Hpaths in H.
    unfold bind in H.
    destruct (genV1ResourcesProperties host (Cgroups m) w) as [[rp|e] wa];
      [|now injection H as _ <- _].
    destruct (startUnit cm _ _ wa) as [[e|] ws];
      [now injection H as _ <- _|].
    unfold applyJoin, bind in H.
    destruct (joinCgroups host (Cgroups m) pid ws) as [[e|] wj];
      [now injection H as _ <- _|].
    destruct (collectPaths host (Cgroups m) legacySubsystems ∅ wj)
      as [[paths|e] wc]; [discriminate | now injection H as _ <- _].
  - intros cPaths paths w1 Hpaths Hloop. unfold Apply. rewrite Hpaths.
    unfold bind. now rewrite Hloop, call_run.
  - unfold Apply.
    destruct (configs.Paths (Cgroups m)) as [cPaths|]; unfold bind.
    + destruct (applyExplicitPaths host (Cgroups m) (map_to_list cPaths) ∅ w)
        as [[paths|e] w1]; reflexivity.
    + destruct (genV1ResourcesProperties host (Cgroups m) w) as [[rp|e] wa];
        [|reflexivity].
      destruct (startUnit cm _ _ wa) as [[e|] ws]; [reflexivity|].
      unfold applyJoin, bind.
      destruct (joinCgroups host (Cgroups m) pid ws) as [[e|] wj];
        [reflexivity|].
      destruct (collectPaths host (Cgroups m) legacySubsystems ∅ wj)
        as [[paths|e] wc]; reflexivity.
Qed.

(** A daemon that refuses the unit, and explicit paths. *)
Lemma Apply_failure_keeps_manager_witness :
  let host := Scripted.machine [] [] "" in
  snd (fst (Apply (unreachableDaemon (ErrorString "no reply")) host
              (Scripted.manager (Scripted.cgroup 0 0)) 42 Scripted.world0))
  = Scripted.manager (Scripted.cgroup 0 0)
  /\ Paths (snd (fst (Apply (unreachableDaemon (ErrorString "no reply")) host
                        (Scripted.manager Scripted.cgroupWithPaths) 42
                        Scripted.world0)))
     = {[ "memory" := "/sys/fs/cgroup/memory/g" ]}.
Proof.
  intros host.
  destruct (Apply_failure_keeps_manager
              (unreachableDaemon (ErrorString "no reply")) host
              (Scripted.manager (Scripted.cgroup 0 0)) 42 Scripted.world0)
    as (Hdaemon & _ & _).
  destruct (Apply_failure_keeps_manager
              (unreachableDaemon (ErrorString "no reply")) host
              (Scripted.manager Scripted.cgroupWithPaths) 42 Scripted.world0)
    as (_ & Hexplicit & _).
  split.
  - apply (Hdaemon eq_refl (ErrorString "no reply") _
             (snd (Apply (unreachableDaemon (ErrorString "no reply")) host
                     (Scripted.manager (Scripted.cgroup 0 0)) 42
                     Scripted.world0))).
    vm_compute. reflexivity.
  - rewrite (Hexplicit {[ "memory" := "/sys/fs/cgroup/memory/g" ]}
               {[ "memory" := "/sys/fs/cgroup/memory/g" ]}
               (snd (applyExplicitPaths host Scripted.cgroupWithPaths
                       (map_to_list {[ "memory" := "/sys/fs/cgroup/memory/g" ]})
                       ∅ Scripted.world0))
               eq_refl);
      [reflexivity | vm_compute; reflexivity].
Defined.

Section PathMapFacts.

Variable host : Host.

Lemma applyExplicitPaths_entries (c : configs.Cgroup)
    (items : list (string * string)) :
  forall (paths paths' : gmap string string) (w w' : World),
    applyExplicitPaths host c items paths w = (Ok paths', w') ->
    forall k v,
      paths' !! k = Some v -> paths !! k = Some v \/ In (k, v) items.
Proof.
  induction items as [|[name path] items IH]; intros paths paths' w w' H k v Hk.
  - injection H as <- _. now left.
  - cbn [applyExplicitPaths] in H. unfold bind in H.
    destruct (getSubsystemPath host c name w) as [[p|err] w1].
    + destruct (IH _ _ _ _ H k v Hk) as [Hin|Hin]; [|right; now right].
      rewrite lookup_insert in Hin. case_decide as Heq.
      * injection Hin as <-. subst k. right. now left.
      * now left.
    + destruct (IsNotFound err); [|discriminate].
      destruct (IH _ _ _ _ H k v Hk) as [Hin|Hin];
        [now left | right; now right].
Qed.

Lemma collectPaths_keys (c : configs.Cgroup) (subsystems : subsystemSet) :
  forall (paths paths' : gmap string string) (w w' : World),
    collectPaths host c subsystems paths w = (Ok paths', w') ->
    forall k v,
      paths' !! k = Some v ->
      paths !! k = Some v \/ In k (map subsystem_Name subsystems).
Proof.
  induction subsystems as [|s subsystems IH];
    intros paths paths' w w' H k v Hk.
  - injection H as <- _. now left.
  - cbn [collectPaths] in H. unfold bind in H.
    destruct (getSubsystemPath host c (subsystem_Name s) w) as [[p|err] w1].
    + destruct (IH _ _ _ _ H k v Hk) as [Hin|Hin]; [|right; now right].
      rewrite lookup_insert in Hin. case_decide as Heq.
      * right. left. exact Heq.
      * now left.
    + destruct (IsNotFound err); [|discriminate].
      destruct (IH _ _ _ _ H k v Hk) as [Hin|Hin];
        [now left | right; now right].
Qed.

End PathMapFacts.

(** X12.  In explicit-path mode [Apply] records only override paths: the
    manager is unchanged or its path map is a submap of the configuration's
    override map, whatever order the overrides are visited in. *)
Theorem Apply_explicit_submap (cm : dbusConnManager) (host : Host)
    (m m' : LegacyManager) (pid : Z) (w w' : World) (e : option error)
    (cPaths : gmap string string) :
  configs.Paths (Cgroups m) = Some cPaths ->
  Apply cm host m pid w = (e, m', w') ->
  m' = m \/ Paths m' ⊆ cPaths.
Proof.
  intros Hpaths H. unfold Apply in H. rewrite Hpaths in H. unfold bind in H.
  destruct (applyExplicitPaths host (Cgroups m) (map_to_list cPaths) ∅ w)
    as [[paths|err] w1] eqn:Hloop; [|left; now injection H as _ <- _].
  right. rewrite call_run in H. injection H as _ <- _. cbn [withPaths Paths].
  apply map_subseteq_spec. intros k v Hk.
  destruct (applyExplicitPaths_entries host _ _ _ _ _ _ Hloop k v Hk)
    as [Hin|Hin]; [now rewrite lookup_empty in Hin|].
  apply elem_of_map_to_list, list_elem_of_In. exact Hin.
Qed.

(** The manager with the explicit path of "memory". *)
Lemma Apply_explicit_submap_witness :
  Paths (snd (fst (Apply
                     (Scripted.daemon (Completion "done") (Completion "done")
                        "245")
                     (Scripted.machine [] [] "")
                     (Scripted.manager Scripted.cgroupWithPaths) 42
                     Scripted.world0)))
  ⊆ ({[ "memory" := "/sys/fs/cgroup/memory/g" ]} : gmap string string).
Proof.
  set (r := Apply
              (Scripted.daemon (Completion "done") (Completion "done") "245")
              (Scripted.machine [] [] "")
              (Scripted.manager Scripted.cgroupWithPaths) 42
              Scripted.world0).
  destruct (Apply_explicit_submap
              (Scripted.daemon (Completion "done") (Completion "done") "245")
              (Scripted.machine [] [] "")
              (Scripted.manager Scripted.cgroupWithPaths) (snd (fst r)) 42
              Scripted.world0 (snd r) (fst (fst r))
              {[ "memory" := "/sys/fs/cgroup/memory/g" ]} eq_refl)
    as [Heq|Hsub].
  - fold r. now destruct r as [[e m'] w'].
  - apply (f_equal Paths) in Heq. vm_compute in Heq. discriminate Heq.
  - exact Hsub.
Defined.

(** X13.  After a successful [Apply] in daemon mode every key of the path map
    is the name of one of the thirteen controllers. *)
Theorem Apply_paths_are_controllers (cm : dbusConnManager) (host : Host)
    (m m' : LegacyManager) (pid : Z) (w w' : World) :
  configs.Paths (Cgroups m) = None ->
  Apply cm host m pid w = (None, m', w') ->
  forall k v,
    Paths m' !! k = Some v ->
    In k ["cpuset"; "devices"; "memory"; "cpu"; "cpuacct"; "pids"; "blkio";
          "hugetlb"; "perf_event"; "freezer"; "net_prio"; "net_cls";
          "name=systemd"].
Proof.
  intros Hpaths H k v Hk. unfold Apply in H. rewrite Hpaths in H.
  unfold bind in H.
  destruct (genV1ResourcesProperties host (Cgroups m) w) as [[rp|e] wa];
    [|discriminate].
  destruct (startUnit cm _ _ wa) as [[e|] ws]; [discriminate|].
  unfold applyJoin, bind in H.
  destruct (joinCgroups host (Cgroups m) pid ws) as [[e|] wj];
    [discriminate|].
  destruct (collectPaths host (Cgroups m) legacySubsystems ∅ wj)
    as [[paths|e] wc] eqn:Hcollect; [|discriminate].
  injection H as <- _. cbn [withPaths Paths] in Hk.
  destruct (collectPaths_keys host _ _ _ _ _ _ Hcollect k v Hk) as [Hin|Hin];
    [now rewrite lookup_empty in Hin | exact Hin].
Qed.

(** On a host without "hugetlb" the map has "memory" and not "hugetlb". *)
Lemma Apply_paths_are_controllers_witness :
  let r := Apply (Scripted.daemon (Completion "done") (Completion "done") "245")
             (Scripted.machine ["hugetlb"] [] "")
             (Scripted.manager (Scripted.cgroup 0 0)) 42 Scripted.world0 in
  fst (fst r) = None
  /\ Paths (snd (fst r)) !! "hugetlb" = None
  /\ (forall v, Paths (snd (fst r)) !! "memory" = Some v ->
                In "memory"
                  ["cpuset"; "devices"; "memory"; "cpu"; "cpuacct"; "pids";
                   "blkio"; "hugetlb"; "perf_event"; "freezer"; "net_prio";
                   "net_cls"; "name=systemd"]).
Proof.
  intros r. split; [vm_compute; reflexivity|].
  split; [vm_compute; reflexivity|].
  intros v Hv.
  apply (Apply_paths_are_controllers
           (Scripted.daemon (Completion "done") (Completion "done") "245")
           (Scripted.machine ["hugetlb"] [] "")
           (Scripted.manager (Scripted.cgroup 0 0)) (snd (fst r)) 42
           Scripted.world0 (snd r) eq_refl) with (v := v);
    [|exact Hv].
  subst r. vm_compute. reflexivity.
Defined.

(** ** The registry of controllers *)

(** X14.  [Get] returns the first controller of the set with the given name,
    and fails with "subsystem does not exist" exactly when no controller has
    that name; in [legacySubsystems] every controller is found under its own
    name. *)
Theorem subsystemSet_Get_spec (s : subsystemSet) (name : string) :
  match subsystemSet_Get s name with
  | Ok ss => subsystem_Name ss = name /\ In ss s
  | Err err =>
      err = errSubsystemDoesNotExist /\ ~ In name (map subsystem_Name s)
  end
  /\ (forall ss, In ss legacySubsystems ->
                 subsystemSet_Get legacySubsystems (subsystem_Name ss) = Ok ss).
Proof.
  split.
  - induction s as [|ss s IH]; [split; [reflexivity | intros []]|].
    cbn [subsystemSet_Get].
    destruct (String.eqb_spec (subsystem_Name ss) name) as [Heq|Hne].
    + split; [exact Heq | now left].
    + destruct (subsystemSet_Get s name) as [ss'|err].
      * destruct IH as [Hname Hin]. split; [exact Hname | now right].
      * destruct IH as [Herr Hnot]. split; [exact Herr|].
        intros [Heq|Hin]; [now apply Hne | now apply Hnot].
  - intros ss Hin. cbn [legacySubsystems In] in Hin.
    repeat (destruct Hin as [<-|Hin]; [reflexivity|]). destruct Hin.
Qed.

(** The freezer is found under its name; no controller is named "rdma". *)
Lemma subsystemSet_Get_spec_witness :
  subsystemSet_Get legacySubsystems "freezer" = Ok FreezerGroup
  /\ ~ In "rdma" (map subsystem_Name legacySubsystems).
Proof.
  split.
  - apply (proj2 (subsystemSet_Get_spec [] "") FreezerGroup).
    cbn [legacySubsystems In]. auto 12.
  - exact (proj2 (proj1 (subsystemSet_Get_spec legacySubsystems "rdma"))).
Defined.

(** ** Starting a unit *)

(** X15.  [startUnit] returns nil exactly when the unit was created ("done")
    or already exists, and it asks the daemon to reset the failed unit
    exactly when the request was accepted but did not complete with "done"
    (another status, or the timeout); a failure of that reset is only
    logged. *)
Theorem startUnit_outcome (cm : dbusConnManager) (unitName : string)
    (properties : list Property) (w : World) :
  let reply :=
    StartTransientUnitContext cm (history w) unitName "replace" properties in
  let r := startUnit cm unitName properties w in
  (fst r = None
   <-> reply = Completion "done"
       \/ exists e, reply = RequestError e /\ isUnitExists (Some e) = true)
  /\ (exists new,
        extends (new ++ [EStartTransientUnit unitName "replace" properties])
          w (snd r)
        /\ (In (EResetFailedUnit unitName) new
            <-> reply = Timeout
                \/ exists s, reply = Completion s /\ s <> "done")
        /\ Forall (fun ev => ev = EResetFailedUnit unitName
                             \/ exists e,
                                  ev = ELog "warn"
                                         "unable to reset failed unit: %v"
                                         [AErr e]) new).
Proof.
  intros reply r. subst r. unfold startUnit, bind. rewrite call_run.
  fold reply.
  assert (Hreset : forall (err : error) (w1 : World),
             exists new,
               (let (_, w') := resetFailedUnit cm unitName w1 in
                (Some err, w'))
               = (Some err, {| history := (new ++ history w1)%list;
                               version := version w1 |})
               /\ In (EResetFailedUnit unitName) new
               /\ Forall (fun ev => ev = EResetFailedUnit unitName
                                    \/ exists e,
                                         ev = ELog "warn"
                                                "unable to reset failed unit: %v"
                                                [AErr e]) new).
  { intros err w1. unfold resetFailedUnit, bind, log, ret.
    rewrite call_run.
    destruct (ResetFailedUnitContext cm (history w1) unitName) as [e|].
    - rewrite call_run.
      exists [ELog "warn" "unable to reset failed unit: %v" [AErr e];
              EResetFailedUnit unitName].
      split; [reflexivity | split; [cbn [In]; auto|]].
      constructor; [right; now exists e|].
      constructor; [now left | constructor].
    - exists [EResetFailedUnit unitName].
      split; [reflexivity | split; [cbn [In]; auto|]].
      constructor; [now left | constructor]. }
  destruct reply as [e|s|] eqn:Hreply.
  - split.
    + destruct (isUnitExists (Some e)) eqn:Hex; cbn [negb fst]; unfold ret;
        cbn [fst].
      * split; [intros _; right; now exists e | reflexivity].
      * split; [discriminate|].
        intros [H|(e' & [= <-] & H)]; [discriminate | congruence].
    + exists []. split; [|split; [|constructor]].
      * destruct (isUnitExists (Some e)); split; reflexivity.
      * split; [intros [] | intros [H|(s & H & _)]; discriminate].
  - destruct (String.eqb_spec s "done") as [->|Hs]; cbn [negb].
    + split; [split; [intros _; now left | reflexivity]|].
      exists []. split; [split; reflexivity | split; [|constructor]].
      split; [intros [] |].
      intros [H|(s & [= <-] & H)]; [discriminate | congruence].
    + destruct (Hreset (ErrorString ("error creating systemd unit `"
                                     ++ unitName ++ "`: got `" ++ s ++ "`"))
                  {| history :=
                       EStartTransientUnit unitName "replace" properties
                       :: history w;
                     version := version w |})
        as (new & Heq & Hin & Hall).
      unfold ret. rewrite Heq. cbn [fst snd history version].
      split.
      * split; [discriminate|].
        intros [[= H]|(e & H & _)]; [congruence | discriminate].
      * exists new. split; [split; [now rewrite <- app_assoc | reflexivity]|].
        split; [|exact Hall].
        split; [intros _; right; now exists s | intros _; exact Hin].
  - destruct (Hreset (ErrorString ("Timeout waiting for systemd to create "
                                   ++ unitName))
                {| history :=
                     EStartTransientUnit unitName "replace" properties
                     :: history w;
                   version := version w |})
      as (new & Heq & Hin & Hall).
    unfold ret. rewrite Heq. cbn [fst snd history version].
    split.
    + split; [discriminate|]. intros [H|(e & H & _)]; discriminate.
    + exists new. split; [split; [now rewrite <- app_assoc | reflexivity]|].
      split; [|exact Hall].
      split; [intros _; now left | intros _; exact Hin].
Qed.

(** ** The shape of an expanded slice path *)

Section SlicePathFacts.

Lemma concat_cons_char (sep : string) (c : ascii) (f : string)
    (fs : list string) :
  String.concat sep (String c f :: fs) = String c (String.concat sep (f :: fs)).
Proof. destruct fs; reflexivity. Qed.

(** Joining what [Split] returns gives the string back. *)
Lemma concat_Split (sep : ascii) (s : string) :
  String.concat (String sep "") (strings.Split s sep) = s.
Proof.
  induction s as [|c s IH]; [reflexivity|].
  cbn [strings.Split]. pose proof (Split_not_nil sep s) as Hnil.
  destruct (Ascii.eqb_spec c sep) as [->|Hne].
  - destruct (strings.Split s sep) as [|f fs] eqn:Hs; [congruence|].
    change (String.concat (String sep "") ("" :: f :: fs))
      with (String sep (String.concat (String sep "") (f :: fs))).
    now rewrite IH.
  - destruct (strings.Split s sep) as [|f fs] eqn:Hs; [congruence|].
    now rewrite concat_cons_char, IH.
Qed.

Lemma nestedSlicePath_last (cs : list string) :
  cs <> [] ->
  exists pre,
    nestedSlicePath cs = pre ++ "/" ++ String.concat "-" cs ++ ".slice".
Proof.
  intros Hne. unfold nestedSlicePath.
  destruct (List.length cs) as [|n] eqn:Hlen;
    [destruct cs; [congruence | discriminate]|].
  rewrite seq_S, map_app, concat_empty_app. cbn [map String.concat].
  eexists. f_equal. unfold sliceSegment.
  change (1 + n)%nat with (S n). rewrite <- Hlen, firstn_all. reflexivity.
Qed.

Lemma nestedSlicePath_first (cs : list string) :
  cs <> [] -> strings.HasPrefix (nestedSlicePath cs) "/" = true.
Proof.
  intros Hne. unfold nestedSlicePath.
  destruct cs as [|c cs]; [congruence|].
  cbn [List.length seq map]. rewrite concat_empty_cons.
  unfold sliceSegment at 1. cbn [String.append strings.HasPrefix].
  rewrite Ascii.eqb_refl. now destruct (_ ++ _).
Qed.

(** What a successful [ExpandSlice] says about its input. *)
Lemma ExpandSlice_Ok_inv (slice path : string) :
  ExpandSlice slice = Ok path ->
  (slice = "-.slice" /\ path = "/")
  \/ (strings.HasSuffix slice ".slice" = true
      /\ path = nestedSlicePath
                  (strings.Split (strings.TrimSuffix slice ".slice") "-")).
Proof.
  unfold ExpandSlice. intros H.
  destruct (strings.HasSuffix slice ".slice") eqn:Hsuf;
    [|rewrite orb_true_r in H; discriminate].
  destruct (String.length slice <? String.length ".slice")%nat;
    [discriminate|]. cbn [negb orb] in H.
  destruct (strings.Contains slice "/"); [discriminate|].
  destruct (String.eqb_spec (strings.TrimSuffix slice ".slice") "-")
    as [Hroot|Hroot].
  - left. injection H as <-. split; [|reflexivity].
    rewrite (HasSuffix_split _ _ Hsuf), Hroot. reflexivity.
  - right. split; [reflexivity|].
    destruct (in_dec string_dec ""
                (strings.Split (strings.TrimSuffix slice ".slice") "-"))
      as [Hin|Hnot].
    + rewrite (expandComponents_empty _ _ _ Hin) in H. discriminate.
    + pose proof (expandComponents_nested slice _ [] Hnot) as Hnested.
      cbn [app List.length seq map String.concat dashed] in Hnested.
      unfold dashed in Hnested. cbn [map String.concat] in Hnested.
      rewrite Hnested in H. now injection H as <-.
Qed.

End SlicePathFacts.

(** X16.  A path returned by [ExpandSlice] is absolute, and for every slice
    but the root slice its last segment is the slice's own name. *)
Theorem ExpandSlice_result_shape (slice path : string) :
  ExpandSlice slice = Ok path ->
  strings.HasPrefix path "/" = true
  /\ (slice <> "-.slice" -> strings.HasSuffix path ("/" ++ slice) = true).
Proof.
  intros H.
  destruct (ExpandSlice_Ok_inv slice path H) as [[-> ->]|[Hsuf ->]].
  - split; [reflexivity | congruence].
  - pose proof (Split_not_nil "-"%char (strings.TrimSuffix slice ".slice"))
      as Hnil.
    split; [now apply nestedSlicePath_first|].
    intros _. destruct (nestedSlicePath_last _ Hnil) as [pre ->].
    rewrite (concat_Split "-"%char), <- (HasSuffix_split _ _ Hsuf).
    change (pre ++ "/" ++ slice) with (pre ++ ("/" ++ slice)).
    now rewrite HasSuffix_append, String.eqb_refl.
Qed.

(** The theorem on "test-a-b.slice". *)
Lemma ExpandSlice_result_shape_witness :
  strings.HasSuffix "/test.slice/test-a.slice/test-a-b.slice"
    "/test-a-b.slice" = true.
Proof.
  exact (proj2 (ExpandSlice_result_shape "test-a-b.slice" _ eq_refl)
           ltac:(discriminate)).
Defined.

(** ** CPU and memory-node affinity *)

(** X17.  [addCpuset] does nothing when both ranges are empty.  On a daemon
    older than version 244 it emits nothing and returns nil, whatever the
    ranges are.  Otherwise a range of CPUs that does not convert fails the
    call with the list untouched, while a range of memory nodes that does
    not convert fails it after [AllowedCPUs] has been appended. *)
Theorem addCpuset_edges (RangeToBits : string -> result (list Z))
    (bytesVariant : list Z -> Variant) (Quote : string -> string)
    (cm : dbusConnManager) (host : Host) (props : list Property)
    (cpus mems : string) (w : World) :
  let run := addCpuset RangeToBits bytesVariant Quote cm host props in
  run "" "" w = ((None, props), w)
  /\ (cpus <> "" \/ mems <> "" ->
      fst (systemdVersion cm host w) < 244 ->
      fst (run cpus mems w) = (None, props))
  /\ (cpus <> "" ->
      244 <= fst (systemdVersion cm host w) ->
      forall err, RangeToBits cpus = Err err ->
        fst (run cpus mems w)
        = (Some (WrapError ("resources.CPU.Cpus=" ++ Quote cpus
                            ++ " conversion error: ") err), props))
  /\ (cpus <> "" -> mems <> "" ->
      244 <= fst (systemdVersion cm host w) ->
      forall bits err,
        RangeToBits cpus = Ok bits -> RangeToBits mems = Err err ->
        fst (run cpus mems w)
        = (Some (WrapError ("resources.CPU.Mems=" ++ Quote mems
                            ++ " conversion error: ") err),
           (props ++ [newProp "AllowedCPUs" (bytesVariant bits)])%list)).
Proof.
  intros run. subst run. unfold addCpuset.
  assert (Hboth : cpus <> "" \/ mems <> "" ->
                  String.eqb cpus "" && String.eqb mems "" = false).
  { intros [H|H]; apply String.eqb_neq in H; rewrite H;
      [reflexivity | apply andb_false_r]. }
  split; [reflexivity|]. split; [|split].
  - intros Hne Hold. rewrite (Hboth Hne). unfold bind.
    destruct (systemdVersion cm host w) as [sdVer w1]. cbn [fst] in Hold.
    apply Z.ltb_lt in Hold. rewrite Hold. reflexivity.
  - intros Hc Hnew err Hconv. rewrite (Hboth (or_introl Hc)). unfold bind.
    destruct (systemdVersion cm host w) as [sdVer w1]. cbn [fst] in Hnew.
    apply Z.ltb_ge in Hnew. rewrite Hnew.
    apply String.eqb_neq in Hc. rewrite Hc, Hconv. reflexivity.
  - intros Hc Hm Hnew bits err Hcpus Hmems.
    rewrite (Hboth (or_introl Hc)). unfold bind.
    destruct (systemdVersion cm host w) as [sdVer w1]. cbn [fst] in Hnew.
    apply Z.ltb_ge in Hnew. rewrite Hnew.
    apply String.eqb_neq in Hc, Hm. rewrite Hc, Hm, Hcpus, Hmems.
    reflexivity.
Qed.

(** The theorem with a conversion that knows "0-3" only, on daemons of
    version 243 and 245. *)
Lemma addCpuset_edges_witness :
  let run cm :=
    addCpuset rangeToBitsOf03 (fun bits => VUint32s bits) (fun s => s) cm
      (Scripted.machine [] [] "") [] in
  let old := Scripted.daemon (Completion "done") (Completion "done") "243" in
  let new := Scripted.daemon (Completion "done") (Completion "done") "245" in
  fst (run old "x" "y" Scripted.world0) = (None, [])
  /\ fst (run new "x" "0-3" Scripted.world0)
     = (Some (WrapError "resources.CPU.Cpus=x conversion error: "
                (ErrorString "bad range x")), [])
  /\ fst (run new "0-3" "y" Scripted.world0)
     = (Some (WrapError "resources.CPU.Mems=y conversion error: "
                (ErrorString "bad range y")),
        [newProp "AllowedCPUs" (VUint32s [15])]).
Proof.
  intros run old new. subst run. split; [|split].
  - destruct (addCpuset_edges rangeToBitsOf03 (fun bits => VUint32s bits)
                (fun s => s) old (Scripted.machine [] [] "") [] "x" "y"
                Scripted.world0) as (_ & Hold & _).
    apply Hold; [left; discriminate | reflexivity].
  - destruct (addCpuset_edges rangeToBitsOf03 (fun bits => VUint32s bits)
                (fun s => s) new (Scripted.machine [] [] "") [] "x" "0-3"
                Scripted.world0) as (_ & _ & Hcpus & _).
    apply (Hcpus ltac:(discriminate) ltac:(discriminate) _ eq_refl).
  - destruct (addCpuset_edges rangeToBitsOf03 (fun bits => VUint32s bits)
                (fun s => s) new (Scripted.machine [] [] "") [] "0-3" "y"
                Scripted.world0) as (_ & _ & _ & Hmems).
    apply (Hmems ltac:(discriminate) ltac:(discriminate)
             ltac:(discriminate) _ _ eq_refl eq_refl).
Defined.

(** ** Which calls an operation can make *)

Section CallFacts.

Context {P : Event -> Prop}.

Lemma onlyCalls_ret {A : Type} (a : A) : onlyCalls P (ret a).
Proof. intros w. exists []. repeat split. constructor. Qed.

Lemma onlyCalls_call {A : Type} (ev : Event) (answer : list Event -> A) :
  P ev -> onlyCalls P (call ev answer).
Proof.
  intros Hev w. exists [ev]. rewrite call_run.
  repeat split. now repeat constructor.
Qed.

Lemma onlyCalls_bind {A B : Type} (m : M A) (k : A -> M B) :
  onlyCalls P m -> (forall a, onlyCalls P (k a)) -> onlyCalls P (bind m k).
Proof.
  intros Hm Hk w. unfold bind.
  destruct (Hm w) as (new1 & [Hh1 Hv1] & Hall1).
  destruct (m w) as [a w1]. cbn [snd] in Hh1, Hv1.
  destruct (Hk a w1) as (new2 & [Hh2 Hv2] & Hall2).
  exists (new2 ++ new1)%list. split; [split|].
  - now rewrite Hh2, Hh1, app_assoc.
  - now rewrite Hv2.
  - apply Forall_app. now split.
Qed.

Lemma onlyCalls_impl {A : Type} (Q : Event -> Prop) (m : M A) :
  (forall ev, Q ev -> P ev) -> onlyCalls Q m -> onlyCalls P m.
Proof.
  intros HQP Hm w. destruct (Hm w) as (new & Hext & Hall).
  exists new. split; [exact Hext|].
  eapply List.Forall_impl; [exact HQP | exact Hall].
Qed.

End CallFacts.

Section LookupFacts.

Variable host : Host.

Lemma getSubsystemPath_lookups (c : configs.Cgroup) (subsystem : string) :
  onlyCalls isLookup (getSubsystemPath host c subsystem).
Proof.
  unfold getSubsystemPath.
  apply onlyCalls_bind; [apply onlyCalls_call; now split|].
  intros [mountpoint|err]; [|apply onlyCalls_ret].
  apply onlyCalls_bind; [apply onlyCalls_call; now split|].
  intros [initPath|err]; [|apply onlyCalls_ret].
  destruct (ExpandSlice _); apply onlyCalls_ret.
Qed.

End LookupFacts.

Section DaemonFreeFacts.

Variable host : Host.

Lemma getSubsystemPath_quiet (c : configs.Cgroup) (subsystem : string) :
  onlyCalls quiet (getSubsystemPath host c subsystem).
Proof.
  apply (onlyCalls_impl isLookup); [now intros ev [_ H]|].
  apply getSubsystemPath_lookups.
Qed.

Lemma join_quiet (c : configs.Cgroup) (subsystem : string) (pid : Z) :
  onlyCalls quiet (join host c subsystem pid).
Proof.
  unfold join. apply onlyCalls_bind; [apply getSubsystemPath_quiet|].
  intros [path|err]; [|apply onlyCalls_ret].
  apply onlyCalls_bind; [now apply onlyCalls_call|].
  intros [err|]; [apply onlyCalls_ret|].
  apply onlyCalls_bind; [now apply onlyCalls_call|].
  intros [err|]; apply onlyCalls_ret.
Qed.

Lemma joinCgroup_quiet (c : configs.Cgroup) (pid : Z) (name : string) :
  onlyCalls quiet (joinCgroup host c pid name).
Proof.
  unfold joinCgroup.
  destruct (String.eqb name "name=systemd"); [apply onlyCalls_ret|].
  destruct (String.eqb name "cpuset").
  - apply onlyCalls_bind; [apply getSubsystemPath_quiet|].
    intros [path|err]; [now apply onlyCalls_call|].
    destruct (IsNotFound err); [now apply onlyCalls_call | apply onlyCalls_ret].
  - apply onlyCalls_bind; [apply join_quiet|].
    intros [path|err]; [apply onlyCalls_ret|].
    destruct (String.eqb name "devices"); [apply onlyCalls_ret|].
    destruct (IsNotFound err); apply onlyCalls_ret.
Qed.

Lemma joinCgroupsLoop_quiet (c : configs.Cgroup) (pid : Z)
    (names : list string) :
  onlyCalls quiet (joinCgroupsLoop host c pid names).
Proof.
  induction names as [|name names IH]; [apply onlyCalls_ret|].
  cbn [joinCgroupsLoop]. apply onlyCalls_bind; [apply joinCgroup_quiet|].
  intros [err|]; [apply onlyCalls_ret | exact IH].
Qed.

Lemma applyExplicitPaths_quiet (c : configs.Cgroup)
    (items : list (string * string)) :
  forall paths, onlyCalls quiet (applyExplicitPaths host c items paths).
Proof.
  induction items as [|[name path] items IH]; intros paths;
    [apply onlyCalls_ret|].
  cbn [applyExplicitPaths].
  apply onlyCalls_bind; [apply getSubsystemPath_quiet|].
  intros [p|err]; [apply IH|].
  destruct (IsNotFound err); [apply IH | apply onlyCalls_ret].
Qed.

End DaemonFreeFacts.

(** [ExpandSlice] has one error. *)
Lemma expandComponents_error (slice suffix : string) (cs : list string) :
  forall path prefix err,
    expandComponents slice suffix cs path prefix = Err err ->
    err = invalidSliceName slice.
Proof.
  induction cs as [|comp cs IH]; intros path prefix err H; [discriminate|].
  cbn [expandComponents] in H.
  destruct (String.eqb comp ""); [now injection H as <-|].
  exact (IH _ _ _ H).
Qed.

Lemma ExpandSlice_error (slice : string) (err : error) :
  ExpandSlice slice = Err err -> err = invalidSliceName slice.
Proof.
  unfold ExpandSlice. intros H.
  destruct (_ || _); [now injection H as <-|].
  destruct (strings.Contains _ _); [now injection H as <-|].
  destruct (String.eqb _ "-"); [discriminate|].
  exact (expandComponents_error _ _ _ _ _ _ H).
Qed.

(** X18.  Resolving a controller's path only reads: [getSubsystemPath] makes
    the mountpoint lookup, then at most the init-cgroup lookup, and nothing
    else; a parent slice that is not a valid slice name fails it with the
    invalid-slice-name error once both lookups have answered. *)
Theorem getSubsystemPath_reads_only (host : Host) (c : configs.Cgroup)
    (subsystem : string) (w : World) :
  let r := getSubsystemPath host c subsystem w in
  (exists new,
     extends new w (snd r)
     /\ (new = [EFindCgroupMountpoint (configs.Path c) subsystem]
         \/ new = [EGetInitCgroup subsystem;
                   EFindCgroupMountpoint (configs.Path c) subsystem]))
  /\ (forall mountpoint initPath err,
        FindCgroupMountpoint host (history w) (configs.Path c) subsystem
        = Ok mountpoint ->
        GetInitCgroup host
          (EFindCgroupMountpoint (configs.Path c) subsystem :: history w)
          subsystem
        = Ok initPath ->
        configs.Parent c <> "" ->
        ExpandSlice (configs.Parent c) = Err err ->
        fst r = Err (invalidSliceName (configs.Parent c))).
Proof.
  intros r. subst r. unfold getSubsystemPath, bind. rewrite call_run.
  split.
  - destruct (FindCgroupMountpoint host (history w) (configs.Path c)
                subsystem) as [mountpoint|err].
    + rewrite call_run.
      exists [EGetInitCgroup subsystem;
              EFindCgroupMountpoint (configs.Path c) subsystem].
      split; [|right; reflexivity].
      destruct (GetInitCgroup host _ subsystem) as [initPath|err];
        [destruct (ExpandSlice _)|]; split; reflexivity.
    + exists [EFindCgroupMountpoint (configs.Path c) subsystem].
      split; [split; reflexivity | left; reflexivity].
  - intros mountpoint initPath err Hmp Hip Hparent Hexp.
    rewrite Hmp, call_run. cbn [history]. rewrite Hip.
    apply String.eqb_neq in Hparent. rewrite Hparent. cbn [negb].
    rewrite Hexp. unfold ret. cbn [fst].
    now rewrite (ExpandSlice_error _ _ Hexp).
Qed.

(** A group under the parent "test--a.slice". *)
Lemma getSubsystemPath_reads_only_witness :
  fst (getSubsystemPath (Scripted.machine [] [] "")
         (cgroupUnder "test--a.slice") "memory" Scripted.world0)
  = Err (invalidSliceName "test--a.slice").
Proof.
  exact (proj2 (getSubsystemPath_reads_only (Scripted.machine [] [] "")
                  (cgroupUnder "test--a.slice") "memory" Scripted.world0)
           _ _ _ eq_refl eq_refl ltac:(discriminate) eq_refl).
Defined.

(** X19.  [Freeze], the join pass and [Apply] in explicit-path mode never
    make a request to the daemon, and leave the cached version alone. *)
Theorem filesystem_operations_avoid_daemon (cm : dbusConnManager)
    (host : Host) (m : LegacyManager) (pid : Z)
    (state : configs.FreezerState) :
  onlyCalls (fun ev => isDaemonCall ev = false) (Freeze host m state)
  /\ onlyCalls (fun ev => isDaemonCall ev = false)
       (joinCgroups host (Cgroups m) pid)
  /\ (configs.Paths (Cgroups m) <> None ->
      onlyCalls (fun ev => isDaemonCall ev = false) (Apply cm host m pid)).
Proof.
  split; [|split].
  - unfold Freeze. apply onlyCalls_bind; [apply getSubsystemPath_quiet|].
    intros [path|err]; [|apply onlyCalls_ret].
    rewrite legacySubsystems_freezer.
    apply onlyCalls_bind; [now apply onlyCalls_call|].
    intros [err|]; apply onlyCalls_ret.
  - apply joinCgroupsLoop_quiet.
  - intros Hpaths. unfold Apply.
    destruct (configs.Paths (Cgroups m)) as [cPaths|]; [|congruence].
    apply onlyCalls_bind; [apply applyExplicitPaths_quiet|].
    intros [paths|err]; [|apply onlyCalls_ret].
    apply onlyCalls_bind; [now apply onlyCalls_call|].
    intros e. apply onlyCalls_ret.
Qed.

(** [Apply] on the manager with explicit paths. *)
Lemma filesystem_operations_avoid_daemon_witness :
  exists new,
    extends new Scripted.world0
      (snd (Apply (unreachableDaemon (ErrorString "no reply"))
              (Scripted.machine [] [] "")
              (Scripted.manager Scripted.cgroupWithPaths) 42
              Scripted.world0))
    /\ Forall (fun ev => isDaemonCall ev = false) new.
Proof.
  exact (proj2 (proj2 (filesystem_operations_avoid_daemon
                         (unreachableDaemon (ErrorString "no reply"))
                         (Scripted.machine [] [] "")
                         (Scripted.manager Scripted.cgroupWithPaths) 42 ""))
           ltac:(discriminate) Scripted.world0).
Defined.

(** ** Set *)



(** ** The properties of the unit *)

